(** * code_macro.py: debounced, thread-marshalled reload of a watched file

    A shallow embedding of the FreeCAD macro [code_macro.py]: the reload
    executor ([ThreadSafeReloader]), the event-driven change source
    ([DebugFileHandler]), the polling change source ([DebugPollingWatcher])
    and the supervisor ([start_debug_watcher], [stop_debug_watcher]).

    Modelling conventions.
    - Clock readings ([time.time()]) and modification times
      ([os.path.getmtime]) are Python floats; they are modelled as exact
      rationals ([Q]), compared with a boolean strict order.
    - Paths and messages are [string]s; Python's [==] on [str] is
      [String.eqb].
    - The host (FreeCAD, the file system, the interpreter's [exec]) is an
      oracle record: every call the source makes to it is answered by a field
      of the record, and every call is appended to a trace of effects, in
      program order.
    - Python exceptions are values of [exn]; [try ... except Exception] is
      [try_except], which catches exactly the exceptions deriving from
      [Exception].
    - The [print] calls of the source write to standard output only and carry
      no control flow; they are not part of the trace. *)

From Stdlib Require Import List Ascii String Bool Arith Lia.
From Stdlib Require Import QArith.
Import ListNotations.
Open Scope string_scope.
Open Scope list_scope.

(** ** Python exceptions and fallible, effectful computations *)

Module Py.

(** Two families of exceptions matter to the handlers of the source:
    those deriving from [Exception] (caught by [except Exception]), and those
    deriving from [BaseException] only ([SystemExit], [KeyboardInterrupt]),
    which [except Exception] lets through.  [ImportError] is singled out
    because one handler names it. *)
Inductive exn_class : Type :=
| ImportError
| OtherException
| SystemExiting.

Record exn : Type := Exn { exn_cls : exn_class; exn_str : string }.

Definition isinstance_Exception (e : exn) : bool :=
  match exn_cls e with
  | SystemExiting => false
  | _ => true
  end.

Definition isinstance_ImportError (e : exn) : bool :=
  match exn_cls e with
  | ImportError => true
  | _ => false
  end.

(** The line feed that ends the messages sent to the host's console. *)
Definition newline : string := String (Ascii.ascii_of_nat 10) EmptyString.

(** How a call ends: it returns a value, or an exception leaves it. *)
Inductive outcome (A : Type) : Type :=
| Returns (a : A)
| Raises (e : exn).
Arguments Returns {A} a.
Arguments Raises {A} e.

(** A computation yields the effects it performed, in order, and its
    outcome. *)
Definition M (E A : Type) : Type := (list E * outcome A)%type.

Definition ret {E A} (a : A) : M E A := ([], Returns a).

Definition raise {E A} (e : exn) : M E A := ([], Raises e).

Definition bind {E A B} (m : M E A) (k : A -> M E B) : M E B :=
  match m with
  | (tr, Returns a) => let (tr', r) := k a in (tr ++ tr', r)
  | (tr, Raises e) => (tr, Raises e)
  end.

(** Perform the effect [ev], whose result the host decides. *)
Definition call {E A} (ev : E) (r : outcome A) : M E A := ([ev], r).

(** [try: body except C as e: handler e], where [catches] decides
    [isinstance(e, C)]. *)
Definition try_except {E A} (catches : exn -> bool)
    (body : M E A) (handler : exn -> M E A) : M E A :=
  match body with
  | (tr, Returns a) => (tr, Returns a)
  | (tr, Raises e) =>
      if catches e
      then let (tr', r) := handler e in (tr ++ tr', r)
      else (tr, Raises e)
  end.

Definition trace {E A} (m : M E A) : list E := fst m.
Definition result {E A} (m : M E A) : outcome A := snd m.

End Py.

Import Py.

Declare Scope py_scope.
Delimit Scope py_scope with py.
Notation "x <- m ;; k" := (bind m (fun x => k))
  (at level 61, m at next level, right associativity) : py_scope.
Notation "m ;; k" := (bind m (fun _ => k))
  (at level 61, right associativity) : py_scope.

(** ** The reload executor: [ThreadSafeReloader] *)

Module ThreadSafeReloader.

(** Values bound in the namespace handed to [exec]. *)
Inductive value : Type :=
| VApp                       (* the FreeCAD module *)
| VGui                       (* the FreeCADGui module *)
| VPart                      (* the Part module *)
| VStr (s : string).

(** A Python [dict] literal keeps insertion order; keys are distinct here. *)
Definition namespace : Type := list (string * value).

(** Effects on the host, as the executor performs them. *)
Inductive effect : Type :=
| ReadFile (path : string)                  (* open(path) and f.read() *)
| ImportPart                                (* import Part *)
| Exec (code : string) (ns : namespace)     (* exec(code, namespace) *)
| Recompute                                 (* App.ActiveDocument.recompute() *)
| UpdateGui                                 (* Gui.updateGui() *)
| PrintMessage (msg : string)               (* App.Console.PrintMessage *)
| PrintError (msg : string)                 (* App.Console.PrintError *)
| PrintExc.                                 (* traceback.print_exc() *)

(** What the host answers during one run of the executor. *)
Record Host : Type := {
  (* os.path.exists(path) *)
  path_exists : string -> bool;
  (* open(path, 'r', encoding='utf-8') followed by f.read() *)
  read_text : string -> outcome string;
  (* import Part *)
  import_Part : outcome unit;
  (* exec(code, namespace) *)
  exec : string -> namespace -> outcome unit;
  (* truthiness of App.ActiveDocument once exec has returned *)
  ActiveDocument : bool;
  (* App.ActiveDocument.recompute() *)
  recompute : outcome unit;
  (* Gui.updateGui() *)
  updateGui : outcome unit;
  (* str(e) at line 98, for an exception e that the code of the watched
     file raised: what it raises, None when it returns the text of e *)
  str_raises : option exn
}.

(** The object itself: a [QObject] whose signal is connected to the
    executor.  Objects are told apart by the order of their creation. *)
Record t : Type := mk { ident : nat }.

(** A reload request in flight: the signal of [via] emitted with [target]. *)
Record ReloadRequest : Type := {
  via : t;
  target : string
}.

(** [request_reload]: emit [reload_signal] with the path. *)
Definition request_reload (self : t) (python_file_path : string)
  : list ReloadRequest :=
  [ {| via := self; target := python_file_path |} ].

Definition success_message : string :=
  (">>> Geometry updated from file! <<<" ++ newline)%string.

Definition error_msg (e : exn) : string :=
  ("💥 ERROR during reload: " ++ exn_str e)%string.

Definition base_namespace (python_file_path : string) : namespace :=
  [ ("App", VApp); ("Gui", VGui); ("FreeCAD", VApp); ("FreeCADGui", VGui);
    ("__file__", VStr python_file_path); ("__name__", VStr "__main__") ].

Local Open Scope py_scope.

(** Lines 75-80: the namespace after the attempt to import [Part]. *)
Definition add_modules (h : Host) (ns : namespace) : M effect namespace :=
  try_except isinstance_ImportError
    (call ImportPart (import_Part h) ;; ret (ns ++ [("Part", VPart)]))
    (fun _ => ret ns).

(** Lines 87-95: the updates behind the active-document guard. *)
Definition gui_updates (h : Host) : M effect unit :=
  if ActiveDocument h then
    call Recompute (recompute h) ;;
    call UpdateGui (updateGui h) ;;
    call (PrintMessage success_message) (Returns tt)
  else ret tt.

(** Lines 54-95: the body of the [try]. *)
Definition reload_body (h : Host) (python_file_path : string)
  : M effect unit :=
  if negb (path_exists h python_file_path) then ret tt
  else
    code <- call (ReadFile python_file_path) (read_text h python_file_path) ;;
    namespace <- add_modules h (base_namespace python_file_path) ;;
    call (Exec code namespace) (exec h code namespace) ;;
    gui_updates h.

(** Whether the run gets as far as [exec] and is left there by an
    exception.  The exception that reaches the handler is then an object
    the code of the watched file raised, of a class that code may define
    itself; in every other case it is an error of the host or of a
    library. *)
Definition raised_by_code (h : Host) (python_file_path : string) : bool :=
  path_exists h python_file_path
  && match read_text h python_file_path with
     | Returns code =>
         match add_modules h (base_namespace python_file_path) with
         | (_, Returns namespace) =>
             match exec h code namespace with
             | Raises _ => true
             | Returns _ => false
             end
         | (_, Raises _) => false
         end
     | Raises _ => false
     end.

(** Line 98: [str(e)].  An error of the host or of a library prints as its
    text.  For an exception the code of the watched file raised, [__str__]
    is code of that file as well: it returns the text, or raises. *)
Definition str_of (h : Host) (python_file_path : string) (e : exn)
  : M effect string :=
  if raised_by_code h python_file_path then
    match str_raises h with
    | Some e' => raise e'
    | None => ret (exn_str e)
    end
  else ret (exn_str e).

(** Lines 97-102: the handler of [except Exception as e]. *)
Definition reload_handler (h : Host) (python_file_path : string) (e : exn)
  : M effect unit :=
  text <- str_of h python_file_path e ;;
  call (PrintError ("💥 ERROR during reload: " ++ text ++ newline)%string)
    (Returns tt) ;;
  call PrintExc (Returns tt).

Definition reload_geometry_safe (h : Host) (python_file_path : string)
  : M effect unit :=
  try_except isinstance_Exception
    (reload_body h python_file_path)
    (reload_handler h python_file_path).

End ThreadSafeReloader.

(** ** Comparing clock readings *)

(** Python's [x < y] on the rationals that stand for floats. *)
Definition Qltb (x y : Q) : bool := negb (Qle_bool y x).

(** ** The event-driven change source: [DebugFileHandler] *)

Module DebugFileHandler.

(** The events [watchdog] hands to a handler.  Every event carries a source
    path and the directory flag; [dest_path] is meaningful for moves. *)
Inductive event_type : Type :=
| EVENT_TYPE_MOVED
| EVENT_TYPE_DELETED
| EVENT_TYPE_CREATED
| EVENT_TYPE_MODIFIED
| EVENT_TYPE_CLOSED
| EVENT_TYPE_OPENED.

Record FileSystemEvent : Type := {
  ev_type : event_type;
  src_path : string;
  dest_path : string;
  is_directory : bool
}.

Record t : Type := mk {
  python_file_path : string;
  last_modified : Q
}.

Definition __init__ (python_file_path : string) : t :=
  mk python_file_path 0.

(** Which way [_trigger_reload] left: through the early [return] of the
    debounce check, or past it. *)
Inductive decision : Type :=
| Debounced
| Processed.

(** What a handler method leaves behind: the handler, the way the debounce
    check went when it was reached, and the reload requests emitted. *)
Record reaction : Type := {
  handler : t;
  gate : option decision;
  requests : list ThreadSafeReloader.ReloadRequest
}.

Definition ignored (self : t) : reaction :=
  {| handler := self; gate := None; requests := [] |}.

(** [_trigger_reload], entered when the clock reads [current_time] and the
    global [reloader] holds [reloader]. *)
Definition _trigger_reload (current_time : Q)
    (reloader : option ThreadSafeReloader.t) (self : t) : reaction :=
  let time_diff := current_time - last_modified self in
  if Qltb time_diff 1 then
    {| handler := self; gate := Some Debounced; requests := [] |}
  else
    let self := mk (python_file_path self) current_time in
    match reloader with
    | Some r =>
        {| handler := self; gate := Some Processed;
           requests :=
             ThreadSafeReloader.request_reload r (python_file_path self) |}
    | None =>
        {| handler := self; gate := Some Processed; requests := [] |}
    end.

Definition _check_if_our_file_changed (current_time : Q)
    (reloader : option ThreadSafeReloader.t) (self : t)
    (event : FileSystemEvent) : reaction :=
  if is_directory event then ignored self
  else if negb (src_path event =? python_file_path self)%string
  then ignored self
  else _trigger_reload current_time reloader self.

Definition on_modified (current_time : Q)
    (reloader : option ThreadSafeReloader.t) (self : t)
    (event : FileSystemEvent) : reaction :=
  _check_if_our_file_changed current_time reloader self event.

(** [hasattr(event, 'dest_path')] holds of every event: the attribute is a
    field of the event record. *)
Definition on_moved (current_time : Q)
    (reloader : option ThreadSafeReloader.t) (self : t)
    (event : FileSystemEvent) : reaction :=
  if (dest_path event =? python_file_path self)%string
  then _trigger_reload current_time reloader self
  else ignored self.

(** [on_any_event] only prints. *)
Definition on_any_event (self : t) (event : FileSystemEvent) : reaction :=
  ignored self.

(** [FileSystemEventHandler.dispatch] of the [watchdog] library, which the
    class inherits: [on_any_event], then the method of the event's type.
    The methods the class does not override do nothing. *)
Definition dispatch (current_time : Q)
    (reloader : option ThreadSafeReloader.t) (self : t)
    (event : FileSystemEvent) : reaction :=
  let self := handler (on_any_event self event) in
  match ev_type event with
  | EVENT_TYPE_MODIFIED => on_modified current_time reloader self event
  | EVENT_TYPE_MOVED => on_moved current_time reloader self event
  | EVENT_TYPE_CREATED | EVENT_TYPE_DELETED
  | EVENT_TYPE_CLOSED | EVENT_TYPE_OPENED => ignored self
  end.

(** A run of the debounce gate over successive entries, at the clock
    readings [times]; the log keeps, for each entry, the reading and the
    reaction. *)
Fixpoint feed (reloader : option ThreadSafeReloader.t) (times : list Q)
    (self : t) : t * list (Q * reaction) :=
  match times with
  | [] => (self, [])
  | now :: rest =>
      let r := _trigger_reload now reloader self in
      let (self', log) := feed reloader rest (handler r) in
      (self', (now, r) :: log)
  end.

(** The reading of the last entry of a log that got past the debounce
    check, [acc] when there is none. *)
Fixpoint last_accepted (acc : option Q) (log : list (Q * reaction))
  : option Q :=
  match log with
  | [] => acc
  | (now, r) :: rest =>
      match gate r with
      | Some Processed => last_accepted (Some now) rest
      | _ => last_accepted acc rest
      end
  end.

End DebugFileHandler.

(** ** The polling change source: [DebugPollingWatcher] *)

Module DebugPollingWatcher.

Record t : Type := mk {
  file_path : string;
  last_modified : Q;
  running : bool
}.

Definition __init__ (file_path : string) : t := mk file_path 0 false.

(** [start] sets the flag and starts the thread that runs [_poll]. *)
Definition start (self : t) : t :=
  mk (file_path self) (last_modified self) true.

Definition stop (self : t) : t :=
  mk (file_path self) (last_modified self) false.

(** What one turn of the loop meets: whether [stop] was called since the
    previous turn, what the file system answers, and what the global
    [reloader] holds. *)
Record observation : Type := {
  stop_called : bool;
  file_exists : bool;                          (* os.path.exists *)
  getmtime : outcome Q;                        (* os.path.getmtime *)
  reloader_now : option ThreadSafeReloader.t
}.

Local Open Scope py_scope.

(** Lines 201-205: hand the path to the reloader, when there is one. *)
Definition notify (o : observation) (self : t)
  : M ThreadSafeReloader.ReloadRequest unit :=
  match reloader_now o with
  | Some r =>
      (ThreadSafeReloader.request_reload r (file_path self), Returns tt)
  | None => ret tt
  end.

(** Lines 192-210: the body of the [try] of one turn.  The result is the
    watcher as the turn leaves it; the effects are the requests emitted. *)
Definition poll_body (o : observation) (self : t)
  : M ThreadSafeReloader.ReloadRequest t :=
  if file_exists o then
    current_modified <- ([], getmtime o) ;;
    if Qltb (last_modified self) current_modified then
      (if Qltb 0 (last_modified self) then notify o self else ret tt) ;;
      ret (mk (file_path self) current_modified (running self))
    else ret self
  else ret self.

(** Lines 187-216: one turn; [except Exception] prints, sleeps and goes on
    with the watcher unchanged. *)
Definition poll_turn (o : observation) (self : t)
  : M ThreadSafeReloader.ReloadRequest t :=
  try_except isinstance_Exception (poll_body o self) (fun _ => ret self).

(** [_poll]: the loop, over the successive observations; it leaves when the
    flag is found lowered. *)
Fixpoint _poll (obs : list observation) (self : t)
  : M ThreadSafeReloader.ReloadRequest t :=
  match obs with
  | [] => ret self
  | o :: rest =>
      let self := if stop_called o then stop self else self in
      if running self then
        self' <- poll_turn o self ;;
        _poll rest self'
      else ret self
  end.

(** An observation of an existing file whose modification time is [m]. *)
Definition sees (reloader : option ThreadSafeReloader.t) (m : Q)
  : observation :=
  {| stop_called := false; file_exists := true; getmtime := Returns m;
     reloader_now := reloader |}.

End DebugPollingWatcher.

(** ** The supervisor: [start_debug_watcher] and [stop_debug_watcher] *)

Module Supervisor.

(** A [watchdog] observer: the handlers scheduled on it with the directory
    each one watches (never recursively), whether its thread was started,
    and whether [stop] was called on it. *)
Record Observer : Type := mkObserver {
  watches : list (DebugFileHandler.t * string);
  started : bool;
  stop_set : bool
}.

(** The module's globals, and the objects created so far.  [observer] and
    [polling_thread] name an object by its position among those created. *)
Record State : Type := mkState {
  observer : option nat;
  polling_thread : option nat;
  reloader : option ThreadSafeReloader.t;
  reloaders_created : nat;
  observers : list Observer;
  pollers : list DebugPollingWatcher.t
}.

(** The module as loaded (lines 26-28), nothing created yet. *)
Definition loaded : State := mkState None None None 0 [] [].

(** How the three calls that set the observer up end.  What they raise are
    errors of the library and of the operating system, all deriving from
    [Exception]; the payload is the text of the error. *)
Inductive watchdog_setup : Type :=
| SetupOk
| ObserverRaises (msg : string)      (* Observer() *)
| ScheduleRaises (msg : string)      (* observer.schedule(...) *)
| StartRaises (msg : string).        (* observer.start() *)

Definition observer_active (o : Observer) : bool :=
  started o && negb (stop_set o).

(** The change sources that are detecting: observers started and not
    stopped, polling threads whose flag is raised. *)
Definition active_observers (st : State) : nat :=
  List.length (filter observer_active (observers st)).

Definition active_pollers (st : State) : nat :=
  List.length (filter DebugPollingWatcher.running (pollers st)).

Definition active_change_sources (st : State) : nat :=
  active_observers st + active_pollers st.

Fixpoint update_nth {A} (n : nat) (f : A -> A) (l : list A) : list A :=
  match l, n with
  | [], _ => []
  | x :: l', O => f x :: l'
  | x :: l', S n' => x :: update_nth n' f l'
  end.

(** [reloader = ThreadSafeReloader()] *)
Definition new_reloader (st : State) : State :=
  mkState (observer st) (polling_thread st)
    (Some (ThreadSafeReloader.mk (reloaders_created st)))
    (S (reloaders_created st)) (observers st) (pollers st).

(** [observer = Observer()], and what became of the object [o] by the time
    control leaves the [try]. *)
Definition new_observer (o : Observer) (st : State) : State :=
  mkState (Some (List.length (observers st))) (polling_thread st) (reloader st)
    (reloaders_created st) (observers st ++ [o]) (pollers st).

(** [polling_thread = DebugPollingWatcher(path)] *)
Definition new_poller (p : DebugPollingWatcher.t) (st : State) : State :=
  mkState (observer st) (Some (List.length (pollers st))) (reloader st)
    (reloaders_created st) (observers st) (pollers st ++ [p]).

Section WithPaths.

(** [os.path.dirname], of the platform's path module. *)
Variable dirname : string -> string.

(** Lines 230-237: the body of the [try]. *)
Definition try_watchdog (setup : watchdog_setup) (python_file_path : string)
    (st : State) : State * outcome bool :=
  let event_handler := DebugFileHandler.__init__ python_file_path in
  let watch := (event_handler, dirname python_file_path) in
  match setup with
  | ObserverRaises msg =>
      (st, Raises (Exn OtherException msg))
  | ScheduleRaises msg =>
      (new_observer (mkObserver [] false false) st,
       Raises (Exn OtherException msg))
  | StartRaises msg =>
      (new_observer (mkObserver [watch] false false) st,
       Raises (Exn OtherException msg))
  | SetupOk =>
      (new_observer (mkObserver [watch] true false) st, Returns true)
  end.

(** Lines 241-246: the fallback. *)
Definition fall_back_to_polling (python_file_path : string) (st : State)
  : State * outcome bool :=
  let polling_thread := DebugPollingWatcher.__init__ python_file_path in
  (new_poller (DebugPollingWatcher.start polling_thread) st, Returns true).

Definition start_debug_watcher (WATCHDOG_AVAILABLE : bool)
    (setup : watchdog_setup) (python_file_path : string) (st : State)
  : State * outcome bool :=
  let st := new_reloader st in
  if WATCHDOG_AVAILABLE then
    match try_watchdog setup python_file_path st with
    | (st', Returns b) => (st', Returns b)
    | (st', Raises e) =>
        if isinstance_Exception e
        then fall_back_to_polling python_file_path st'
        else (st', Raises e)
    end
  else fall_back_to_polling python_file_path st.

End WithPaths.

(** Lines 260-263. *)
Definition stop_polling (st : State) : State :=
  match polling_thread st with
  | Some j =>
      mkState (observer st) None (reloader st) (reloaders_created st)
        (observers st) (update_nth j DebugPollingWatcher.stop (pollers st))
  | None => st
  end.

(** [observer.stop()]: the stop is recorded and every handler
    unscheduled. *)
Definition stop_observer (i : nat) (st : State) : State :=
  mkState (observer st) (polling_thread st) (reloader st)
    (reloaders_created st)
    (update_nth i (fun o => mkObserver [] (started o) true)
       (observers st))
    (pollers st).

Definition forget_observer (st : State) : State :=
  mkState None (polling_thread st) (reloader st) (reloaders_created st)
    (observers st) (pollers st).

(** [threading.Thread.join] raises a [RuntimeError] on a thread that was
    never started. *)
Definition join_unstarted : exn :=
  Exn OtherException "cannot join thread before it is started".

Definition stop_debug_watcher (st : State) : State * outcome unit :=
  match observer st with
  | Some i =>
      let st := stop_observer i st in
      match nth_error (observers st) i with
      | Some o =>
          if started o
          then (stop_polling (forget_observer st), Returns tt)
          else (st, Raises join_unstarted)
      | None => (stop_polling (forget_observer st), Returns tt)
      end
  | None => (stop_polling st, Returns tt)
  end.

(** [cleanup], registered with [atexit]. *)
Definition cleanup (st : State) : State * outcome unit :=
  stop_debug_watcher st.

End Supervisor.

(** ** [os.path.dirname] on POSIX platforms *)

Module PosixPath.

Definition is_sep (c : Ascii.ascii) : bool := Ascii.eqb c "/"%char.

Fixpoint has_sep (p : string) : bool :=
  match p with
  | EmptyString => false
  | String c rest => is_sep c || has_sep rest
  end.

Fixpoint all_sep (p : string) : bool :=
  match p with
  | EmptyString => true
  | String c rest => is_sep c && all_sep rest
  end.

(** [p[:p.rfind('/') + 1]] *)
Fixpoint upto_last_sep (p : string) : string :=
  match p with
  | EmptyString => EmptyString
  | String c rest =>
      if has_sep rest then String c (upto_last_sep rest)
      else if is_sep c then String c EmptyString
      else EmptyString
  end.

(** [head.rstrip('/')] *)
Fixpoint rstrip_sep (head : string) : string :=
  match head with
  | EmptyString => EmptyString
  | String c rest =>
      if all_sep head then EmptyString else String c (rstrip_sep rest)
  end.

Definition dirname (p : string) : string :=
  let head := upto_last_sep p in
  match head with
  | EmptyString => head
  | _ => if all_sep head then head else rstrip_sep head
  end.

End PosixPath.

(** ** Sample inputs *)

Module Samples.

Import ThreadSafeReloader.

Definition geometry_py : string := "/tmp/doc_geometry.py".

(** A host on which the watched file reads as [x = 1], every call returns,
    and a document is active or not as [document] tells. *)
Definition host (document : bool) : Host :=
  {| path_exists := fun _ => true;
     read_text := fun _ => Returns "x = 1";
     import_Part := Returns tt;
     exec := fun _ _ => Returns tt;
     ActiveDocument := document;
     recompute := Returns tt;
     updateGui := Returns tt;
     str_raises := None |}.

(** The same host once the file is gone. *)
Definition host_file_missing : Host :=
  {| path_exists := fun _ => false;
     read_text := fun _ => Raises (Exn OtherException "No such file");
     import_Part := Returns tt;
     exec := fun _ _ => Returns tt;
     ActiveDocument := true;
     recompute := Returns tt;
     updateGui := Returns tt;
     str_raises := None |}.

(** The file is there, half edited: its code raises. *)
Definition syntax_error : exn := Exn OtherException "invalid syntax".

Definition host_broken_edit : Host :=
  {| path_exists := fun _ => true;
     read_text := fun _ => Returns "x = ";
     import_Part := Returns tt;
     exec := fun _ _ => Raises syntax_error;
     ActiveDocument := true;
     recompute := Returns tt;
     updateGui := Returns tt;
     str_raises := None |}.



(** The namespace the sample code runs in. *)
Definition sample_namespace : namespace :=
  base_namespace geometry_py ++ [("Part", VPart)].

Definition the_reloader : ThreadSafeReloader.t := ThreadSafeReloader.mk 0.

End Samples.

(** ** Further sample inputs *)

Module MoreSamples.

Import ThreadSafeReloader.



(** The document is being recomputed already: the hook raises. *)
Definition recompute_error : exn :=
  Exn OtherException "Recursive calling of recompute for document".

Definition host_recompute_raises : Host :=
  {| path_exists := fun _ => true;
     read_text := fun _ => Returns "x = 1";
     import_Part := Returns tt;
     exec := fun _ _ => Returns tt;
     ActiveDocument := true;
     recompute := Raises recompute_error;
     updateGui := Returns tt;
     str_raises := None |}.




(** FreeCAD was built without the [Part] workbench. *)
Definition no_part : exn := Exn ImportError "No module named 'Part'".

Definition host_without_Part : Host :=
  {| path_exists := fun _ => true;
     read_text := fun _ => Returns "x = 1";
     import_Part := Raises no_part;
     exec := fun _ _ => Returns tt;
     ActiveDocument := false;
     recompute := Returns tt;
     updateGui := Returns tt;
     str_raises := None |}.

End MoreSamples.

(** ** Reading the log of a run of the debounce gate *)

Module Runs.

Import DebugFileHandler.

(** Every reading is at least one second after the one before it, [last]
    being the one before the first. *)
Fixpoint spaced (last : Q) (times : list Q) : Prop :=
  match times with
  | [] => True
  | now :: rest => 1 <= now - last /\ spaced now rest
  end.

(** The entry got past the debounce check. *)
Definition accepted (entry : Q * reaction) : bool :=
  match gate (snd entry) with
  | Some Processed => true
  | _ => false
  end.

Definition accepted_times (log : list (Q * reaction)) : list Q :=
  map fst (filter accepted log).

(** All the requests emitted along a run, in order. *)
Definition forwarded (log : list (Q * reaction))
  : list ThreadSafeReloader.ReloadRequest :=
  flat_map (fun entry => requests (snd entry)) log.

End Runs.

(** ** Reading a run of the polling loop *)

Module Polls.

(** Every modification time is strictly greater than the one before it,
    [last] being the one before the first. *)
Fixpoint increasing (last : Q) (mtimes : list Q) : Prop :=
  match mtimes with
  | [] => True
  | m :: rest => last < m /\ increasing m rest
  end.

(** An observation of a file that is not there. *)
Definition misses (reloader : option ThreadSafeReloader.t)
  : DebugPollingWatcher.observation :=
  {| DebugPollingWatcher.stop_called := false;
     DebugPollingWatcher.file_exists := false;
     DebugPollingWatcher.getmtime :=
       Raises (Exn OtherException "No such file or directory");
     DebugPollingWatcher.reloader_now := reloader |}.

End Polls.

(** ** States of the supervisor *)

Module Sessions.

Import Supervisor.

(** No session is recorded in the globals. *)
Definition idle (st : State) : Prop :=
  observer st = None /\ polling_thread st = None.

End Sessions.

(** ** The rest of [os.path] that [main] uses, on POSIX platforms *)

Module PosixName.

Import PosixPath.

(** [p[p.rfind('/') + 1:]] *)
Fixpoint basename (p : string) : string :=
  match p with
  | EmptyString => EmptyString
  | String c rest =>
      if has_sep rest then basename rest
      else if is_sep c then rest
      else p
  end.

(** [s.rfind(c)], counted from [i] for the first character. *)
Fixpoint rfind_from (i : nat) (c : Ascii.ascii) (s : string) : option nat :=
  match s with
  | EmptyString => None
  | String a rest =>
      match rfind_from (S i) c rest with
      | Some j => Some j
      | None => if Ascii.eqb a c then Some i else None
      end
  end.

Definition rfind (c : Ascii.ascii) (s : string) : option nat :=
  rfind_from 0 c s.

Fixpoint all_dots (s : string) : bool :=
  match s with
  | EmptyString => true
  | String a rest => Ascii.eqb a "."%char && all_dots rest
  end.

(** [genericpath._splitext(p, '/', None, '.')]: the extension starts at the
    last dot, when that dot comes after the last separator and after a
    character of the name that is not a dot. *)
Definition splitext (p : string) : string * string :=
  match rfind "."%char p with
  | None => (p, EmptyString)
  | Some dotIndex =>
      let filenameIndex :=
        match rfind "/"%char p with
        | None => O
        | Some sepIndex => S sepIndex
        end in
      if Nat.leb filenameIndex dotIndex
         && negb (all_dots
                    (substring filenameIndex (dotIndex - filenameIndex) p))
      then (substring 0 dotIndex p,
            substring dotIndex (String.length p - dotIndex) p)
      else (p, EmptyString)
  end.

Fixpoint ends_with_sep (a : string) : bool :=
  match a with
  | EmptyString => false
  | String c EmptyString => is_sep c
  | String _ rest => ends_with_sep rest
  end.

(** [posixpath.join(a, b)] *)
Definition join (a b : string) : string :=
  match b with
  | String c _ =>
      if is_sep c then b
      else match a with
           | EmptyString => b
           | _ => if ends_with_sep a then (a ++ b)%string
                  else (a ++ "/" ++ b)%string
           end
  | EmptyString =>
      match a with
      | EmptyString => b
      | _ => if ends_with_sep a then a else (a ++ "/")%string
      end
  end.

End PosixName.

(** ** The entry point: [main] *)

Module Macro.

Section WithOsPath.

(** [os.path.dirname], [os.path.basename], [os.path.splitext] and
    [os.path.join], of the platform's path module. *)
Variables dirname basename : string -> string.
Variable splitext : string -> string * string.
Variable join : string -> string -> string.

(** What the host answers while [main] runs. *)
Record Host : Type := {
  (* App.ActiveDocument: None when there is no active document, otherwise
     its FileName, empty for a document never saved *)
  ActiveDocument : option string;
  (* os.path.exists *)
  path_exists : string -> bool;
  (* os.path.getmtime *)
  getmtime : string -> outcome Q;
  (* the module constant, and how setting the observer up ends *)
  WATCHDOG_AVAILABLE : bool;
  setup : Supervisor.watchdog_setup
}.

(** Lines 274-277: the file watched for a document. *)
Definition geometry_file (doc_path : string) : string :=
  let doc_dir := dirname doc_path in
  let doc_name := fst (splitext (basename doc_path)) in
  join doc_dir (doc_name ++ "_geometry.py")%string.

Definition running_message : string :=
  ("Debug file watcher is running. Check console for detailed output."
   ++ newline)%string.

Definition edit_message : string :=
  ("Edit and save the Python file to see debug messages." ++ newline)%string.

(** Lines 284-286: the modification time is read for printing only, but the
    read is outside any [try]. *)
Definition print_mtime (h : Host) (python_file_path : string)
  : outcome unit :=
  if path_exists h python_file_path then
    match getmtime h python_file_path with
    | Returns _ => Returns tt
    | Raises e => Raises e
    end
  else Returns tt.

Definition main (h : Host) (st : Supervisor.State)
  : Supervisor.State * M ThreadSafeReloader.effect unit :=
  match ActiveDocument h with
  | None => (st, ret tt)
  | Some EmptyString => (st, ret tt)
  | Some doc_path =>
      let python_file_path := geometry_file doc_path in
      match print_mtime h python_file_path with
      | Raises e => (st, raise e)
      | Returns _ =>
          match Supervisor.start_debug_watcher dirname
                  (WATCHDOG_AVAILABLE h) (setup h) python_file_path st with
          | (st', Returns true) =>
              (st',
               bind (call (ThreadSafeReloader.PrintMessage running_message)
                       (Returns tt))
                 (fun _ =>
                    call (ThreadSafeReloader.PrintMessage edit_message)
                      (Returns tt)))
          | (st', Returns false) => (st', ret tt)
          | (st', Raises e) => (st', raise e)
          end
      end
  end.

End WithOsPath.

(** [main] on a POSIX platform. *)
Definition posix_main : Host -> Supervisor.State ->
    Supervisor.State * M ThreadSafeReloader.effect unit :=
  main PosixPath.dirname PosixName.basename PosixName.splitext
    PosixName.join.

(** A saved document, on a host where [watchdog] works. *)
Definition saved_document : Host :=
  {| ActiveDocument := Some "/home/u/bracket.FCStd";
     path_exists := fun _ => true;
     getmtime := fun _ => Returns 1000;
     WATCHDOG_AVAILABLE := true;
     setup := Supervisor.SetupOk |}.

(** A document never saved. *)
Definition unsaved_document : Host :=
  {| ActiveDocument := Some EmptyString;
     path_exists := fun _ => false;
     getmtime := fun _ => Raises (Exn OtherException "No such file");
     WATCHDOG_AVAILABLE := true;
     setup := Supervisor.SetupOk |}.

End Macro.

(** * Properties *)

(** ** The boolean order on clock readings *)

Lemma Qltb_lt (x y : Q) : Qltb x y = true <-> x < y.
Proof.
  unfold Qltb. rewrite negb_true_iff.
  split.
  - intros H. apply Qnot_le_lt. intros Hle.
    apply Qle_bool_iff in Hle. congruence.
  - intros H. destruct (Qle_bool y x) eqn:E; [|reflexivity].
    apply Qle_bool_iff in E. exfalso. exact (Qlt_not_le _ _ H E).
Qed.

Lemma Qltb_ge (x y : Q) : Qltb x y = false <-> y <= x.
Proof.
  unfold Qltb. rewrite negb_false_iff. apply Qle_bool_iff.
Qed.

(** ** The reload executor *)

Section Reload.

Import ThreadSafeReloader.

Variable h : Host.
Variable python_file_path : string.

(** The body of the [try] when the file exists. *)
Lemma reload_body_existing :
  path_exists h python_file_path = true ->
  reload_body h python_file_path =
  bind (call (ReadFile python_file_path) (read_text h python_file_path))
    (fun code =>
       bind (add_modules h (base_namespace python_file_path))
         (fun ns =>
            bind (call (Exec code ns) (exec h code ns))
              (fun _ => gui_updates h))).
Proof.
  intros E. unfold reload_body. rewrite E. reflexivity.
Qed.

(** An error of the host or of a library prints as its text. *)
Lemma str_of_host_error (e : exn) :
  raised_by_code h python_file_path = false ->
  str_of h python_file_path e = ret (exn_str e).
Proof.
  intros H. unfold str_of. rewrite H. reflexivity.
Qed.



Lemma not_raised_by_code_import (code : string) (tr : list effect)
    (e : exn) :
  read_text h python_file_path = Returns code ->
  add_modules h (base_namespace python_file_path) = (tr, Raises e) ->
  raised_by_code h python_file_path = false.
Proof.
  intros Hr Hm. unfold raised_by_code. rewrite Hr, Hm. apply andb_false_r.
Qed.

Lemma not_raised_by_code_exec (code : string) (ns : namespace)
    (tr : list effect) :
  read_text h python_file_path = Returns code ->
  add_modules h (base_namespace python_file_path) = (tr, Returns ns) ->
  exec h code ns = Returns tt ->
  raised_by_code h python_file_path = false.
Proof.
  intros Hr Hm He. unfold raised_by_code. rewrite Hr, Hm, He.
  apply andb_false_r.
Qed.

(** An error that leaves the body is reported and goes no further, once
    [str(e)] has returned. *)
Lemma reload_catches (tr : list effect) (e : exn) :
  reload_body h python_file_path = (tr, Raises e) ->
  isinstance_Exception e = true ->
  str_of h python_file_path e = ret (exn_str e) ->
  reload_geometry_safe h python_file_path =
  (tr ++ [PrintError (error_msg e ++ newline)%string; PrintExc], Returns tt).
Proof.
  intros Hb He Hs. unfold reload_geometry_safe, try_except, reload_handler.
  rewrite Hb, He, Hs. unfold error_msg.
  generalize (exn_str e). intros text. reflexivity.
Qed.

(** When [str(e)] raises, what it raises leaves the executor, and nothing
    is reported. *)
Lemma reload_str_raises (tr : list effect) (e e' : exn) :
  reload_body h python_file_path = (tr, Raises e) ->
  isinstance_Exception e = true ->
  str_of h python_file_path e = raise e' ->
  reload_geometry_safe h python_file_path = (tr ++ [], Raises e').
Proof.
  intros Hb He Hs. unfold reload_geometry_safe, try_except, reload_handler.
  rewrite Hb, He, Hs. reflexivity.
Qed.

(** What does not derive from [Exception] goes through. *)
Lemma reload_lets_through (tr : list effect) (e : exn) :
  reload_body h python_file_path = (tr, Raises e) ->
  isinstance_Exception e = false ->
  reload_geometry_safe h python_file_path = (tr, Raises e).
Proof.
  intros Hb He. unfold reload_geometry_safe, try_except.
  rewrite Hb, He. reflexivity.
Qed.

(** A body that returns is the whole run. *)
Lemma reload_returns (tr : list effect) :
  reload_body h python_file_path = (tr, Returns tt) ->
  reload_geometry_safe h python_file_path = (tr, Returns tt).
Proof.
  intros Hb. unfold reload_geometry_safe, try_except. rewrite Hb. reflexivity.
Qed.

(** The import of [Part] performs one effect, whatever comes of it. *)
Lemma add_modules_trace (ns ns' : namespace) (tr : list effect) :
  add_modules h ns = (tr, Returns ns') -> tr = [ImportPart].
Proof.
  unfold add_modules, try_except, bind, call, ret.
  destruct (import_Part h) as [[]|e]; simpl.
  - intros H. inversion H. reflexivity.
  - destruct (isinstance_ImportError e); simpl; intros H; inversion H.
    reflexivity.
Qed.

End Reload.

Section ReloadRuns.

Import ThreadSafeReloader.

Variable h : Host.
Variable python_file_path : string.
Hypothesis file_there : path_exists h python_file_path = true.


Variables (code : string) (ns : namespace) (tr : list effect).
Hypothesis read_ok : read_text h python_file_path = Returns code.
Hypothesis modules_ok :
  add_modules h (base_namespace python_file_path) = (tr, Returns ns).

(** The code raises: the updates of the GUI are not reached. *)
Lemma reload_body_exec_raises (e : exn) :
  exec h code ns = Raises e ->
  reload_body h python_file_path =
  ([ReadFile python_file_path; ImportPart; Exec code ns], Raises e).
Proof.
  intros He. rewrite reload_body_existing by exact file_there.
  pose proof (add_modules_trace _ _ _ _ modules_ok) as ->.
  unfold bind at 1. unfold call at 1. rewrite read_ok.
  unfold bind at 1. rewrite modules_ok.
  unfold bind, call. rewrite He. reflexivity.
Qed.

(** The code returns: the run goes on with the updates of the GUI. *)
Lemma reload_body_exec_returns :
  exec h code ns = Returns tt ->
  reload_body h python_file_path =
  ([ReadFile python_file_path; ImportPart; Exec code ns]
     ++ trace (gui_updates h),
   result (gui_updates h)).
Proof.
  intros He. rewrite reload_body_existing by exact file_there.
  pose proof (add_modules_trace _ _ _ _ modules_ok) as ->.
  unfold bind at 1. unfold call at 1. rewrite read_ok.
  unfold bind at 1. rewrite modules_ok.
  unfold bind, call. rewrite He.
  destruct (gui_updates h) as [tr' r]. reflexivity.
Qed.

End ReloadRuns.

(** The updates, hooks returning, with a document and without. *)
Lemma gui_updates_with_document (h : ThreadSafeReloader.Host) :
  ThreadSafeReloader.ActiveDocument h = true ->
  ThreadSafeReloader.recompute h = Returns tt ->
  ThreadSafeReloader.updateGui h = Returns tt ->
  ThreadSafeReloader.gui_updates h =
  ([ThreadSafeReloader.Recompute; ThreadSafeReloader.UpdateGui;
    ThreadSafeReloader.PrintMessage ThreadSafeReloader.success_message],
   Returns tt).
Proof.
  intros Hd Hr Hu. unfold ThreadSafeReloader.gui_updates.
  rewrite Hd. unfold bind, call. rewrite Hr, Hu. reflexivity.
Qed.

Lemma gui_updates_without_document (h : ThreadSafeReloader.Host) :
  ThreadSafeReloader.ActiveDocument h = false ->
  ThreadSafeReloader.gui_updates h = ([], Returns tt).
Proof.
  intros Hd. unfold ThreadSafeReloader.gui_updates. rewrite Hd. reflexivity.
Qed.

(** A hook that raises ends the updates there. *)
Lemma gui_updates_recompute_raises (h : ThreadSafeReloader.Host) (e : exn) :
  ThreadSafeReloader.ActiveDocument h = true ->
  ThreadSafeReloader.recompute h = Raises e ->
  ThreadSafeReloader.gui_updates h =
  ([ThreadSafeReloader.Recompute], Raises e).
Proof.
  intros Hd Hr. unfold ThreadSafeReloader.gui_updates.
  rewrite Hd. unfold bind, call. rewrite Hr. reflexivity.
Qed.

(** No update is attempted without a document, whatever the hooks would
    do. *)
Lemma gui_updates_need_document (h : ThreadSafeReloader.Host)
    (ev : ThreadSafeReloader.effect) :
  In ev (trace (ThreadSafeReloader.gui_updates h)) ->
  ThreadSafeReloader.ActiveDocument h = true.
Proof.
  unfold ThreadSafeReloader.gui_updates.
  destruct (ThreadSafeReloader.ActiveDocument h); [reflexivity|].
  simpl. intros [].
Qed.

(** C6. When the target file does not exist as the executor runs, the
    executor returns having performed no effect at all: nothing is read,
    nothing is executed, the host is not touched, and nothing is sent to the
    host's error channel. *)
Theorem reload_of_missing_file_is_silent
    (h : ThreadSafeReloader.Host) (python_file_path : string) :
  ThreadSafeReloader.path_exists h python_file_path = false ->
  ThreadSafeReloader.reload_geometry_safe h python_file_path
  = ([], Returns tt).
Proof.
  intros Hx.
  apply reload_returns.
  unfold ThreadSafeReloader.reload_body. rewrite Hx. reflexivity.
Qed.

Lemma reload_of_missing_file_is_silent_witness :
  ThreadSafeReloader.reload_geometry_safe
    Samples.host_file_missing Samples.geometry_py
  = ([], Returns tt).
Proof.
  apply (reload_of_missing_file_is_silent
           Samples.host_file_missing Samples.geometry_py).
  reflexivity.
Defined.




(** An exception that does not derive from [Exception], such as the
    [SystemExit] of a script that calls [sys.exit()], is not caught. *)
Lemma reload_system_exit_goes_through
    (h : ThreadSafeReloader.Host) (python_file_path code : string)
    (ns : ThreadSafeReloader.namespace)
    (tr : list ThreadSafeReloader.effect) (msg : string) :
  ThreadSafeReloader.path_exists h python_file_path = true ->
  ThreadSafeReloader.read_text h python_file_path = Returns code ->
  ThreadSafeReloader.add_modules h
    (ThreadSafeReloader.base_namespace python_file_path)
  = (tr, Returns ns) ->
  ThreadSafeReloader.exec h code ns = Raises (Exn SystemExiting msg) ->
  result (ThreadSafeReloader.reload_geometry_safe h python_file_path)
  = Raises (Exn SystemExiting msg).
Proof.
  intros Hx Hr Hm He.
  rewrite (reload_lets_through h python_file_path _ _
             (reload_body_exec_raises h python_file_path Hx
                code ns tr Hr Hm _ He) eq_refl).
  reflexivity.
Qed.

(** C2, as the code has it.  When the file's content was applied with
    success and the host has an active document at that moment, the executor
    calls the recompute hook, then the GUI-refresh hook, then sends the
    success message to the host's informational channel, in that order and
    as the last things it does (each hook returning).  When the host has no
    active document, the run ends with the execution: neither hook is called
    and no success message is sent. *)
Theorem reload_success_refreshes_in_order_with_document_only
    (h : ThreadSafeReloader.Host) (python_file_path code : string)
    (ns : ThreadSafeReloader.namespace)
    (tr : list ThreadSafeReloader.effect) :
  ThreadSafeReloader.path_exists h python_file_path = true ->
  ThreadSafeReloader.read_text h python_file_path = Returns code ->
  ThreadSafeReloader.add_modules h
    (ThreadSafeReloader.base_namespace python_file_path)
  = (tr, Returns ns) ->
  ThreadSafeReloader.exec h code ns = Returns tt ->
  (ThreadSafeReloader.ActiveDocument h = true ->
   ThreadSafeReloader.recompute h = Returns tt ->
   ThreadSafeReloader.updateGui h = Returns tt ->
   ThreadSafeReloader.reload_geometry_safe h python_file_path =
   ([ThreadSafeReloader.ReadFile python_file_path;
     ThreadSafeReloader.ImportPart;
     ThreadSafeReloader.Exec code ns;
     ThreadSafeReloader.Recompute;
     ThreadSafeReloader.UpdateGui;
     ThreadSafeReloader.PrintMessage
       (">>> Geometry updated from file! <<<" ++ newline)%string],
    Returns tt))
  /\ (ThreadSafeReloader.ActiveDocument h = false ->
      ThreadSafeReloader.reload_geometry_safe h python_file_path =
      ([ThreadSafeReloader.ReadFile python_file_path;
        ThreadSafeReloader.ImportPart;
        ThreadSafeReloader.Exec code ns],
       Returns tt)).
Proof.
  intros Hx Hr Hm He.
  pose proof (reload_body_exec_returns h python_file_path Hx
                code ns tr Hr Hm He) as Hbody.
  split.
  - intros Hd Hrc Hug. apply reload_returns.
    rewrite Hbody, (gui_updates_with_document h Hd Hrc Hug). reflexivity.
  - intros Hd. apply reload_returns.
    rewrite Hbody, (gui_updates_without_document h Hd). reflexivity.
Qed.

Lemma reload_success_refreshes_in_order_with_document_only_witness :
  (ThreadSafeReloader.reload_geometry_safe
     (Samples.host true) Samples.geometry_py =
   ([ThreadSafeReloader.ReadFile Samples.geometry_py;
     ThreadSafeReloader.ImportPart;
     ThreadSafeReloader.Exec "x = 1" Samples.sample_namespace;
     ThreadSafeReloader.Recompute;
     ThreadSafeReloader.UpdateGui;
     ThreadSafeReloader.PrintMessage
       (">>> Geometry updated from file! <<<" ++ newline)%string],
    Returns tt))
  /\ (ThreadSafeReloader.reload_geometry_safe
        (Samples.host false) Samples.geometry_py =
      ([ThreadSafeReloader.ReadFile Samples.geometry_py;
        ThreadSafeReloader.ImportPart;
        ThreadSafeReloader.Exec "x = 1" Samples.sample_namespace],
       Returns tt)).
Proof.
  split.
  - apply (reload_success_refreshes_in_order_with_document_only
             (Samples.host true) Samples.geometry_py "x = 1"
             Samples.sample_namespace [ThreadSafeReloader.ImportPart]
             eq_refl eq_refl eq_refl eq_refl); reflexivity.
  - apply (reload_success_refreshes_in_order_with_document_only
             (Samples.host false) Samples.geometry_py "x = 1"
             Samples.sample_namespace [ThreadSafeReloader.ImportPart]
             eq_refl eq_refl eq_refl eq_refl); reflexivity.
Defined.

(** C2, as stated, fails: on a host without an active document the file's
    content is applied with success, and the executor calls neither hook and
    sends no success message. *)
Lemma reload_success_without_document_calls_no_hook :
  let run := ThreadSafeReloader.reload_geometry_safe
               (Samples.host false) Samples.geometry_py in
  ThreadSafeReloader.exec (Samples.host false) "x = 1"
    Samples.sample_namespace = Returns tt
  /\ run = ([ThreadSafeReloader.ReadFile Samples.geometry_py;
             ThreadSafeReloader.ImportPart;
             ThreadSafeReloader.Exec "x = 1" Samples.sample_namespace],
            Returns tt)
  /\ ~ In ThreadSafeReloader.Recompute (trace run)
  /\ ~ In ThreadSafeReloader.UpdateGui (trace run)
  /\ ~ In (ThreadSafeReloader.PrintMessage
             ThreadSafeReloader.success_message) (trace run).
Proof.
  cbv zeta.
  split; [reflexivity|]. split; [reflexivity|].
  repeat split; intros [H|[H|[H|[]]]]; discriminate H.
Qed.

(** C9, as the code has it.  After the file's content was executed with
    success, the recompute hook, the GUI-refresh hook and the success
    message are performed exactly when the host has an active document at
    that moment: with a document, the three follow the execution (each hook
    returning); without one, the run ends with the execution, none of the
    three is performed and nothing is sent to the error channel; and
    whichever of the three appears in a run, a document was active. *)
Theorem gui_updates_iff_active_document
    (h : ThreadSafeReloader.Host) (python_file_path code : string)
    (ns : ThreadSafeReloader.namespace)
    (tr : list ThreadSafeReloader.effect) :
  ThreadSafeReloader.path_exists h python_file_path = true ->
  ThreadSafeReloader.read_text h python_file_path = Returns code ->
  ThreadSafeReloader.add_modules h
    (ThreadSafeReloader.base_namespace python_file_path)
  = (tr, Returns ns) ->
  ThreadSafeReloader.exec h code ns = Returns tt ->
  let run := ThreadSafeReloader.reload_geometry_safe h python_file_path in
  let executed :=
    [ThreadSafeReloader.ReadFile python_file_path;
     ThreadSafeReloader.ImportPart;
     ThreadSafeReloader.Exec code ns] in
  let updates :=
    [ThreadSafeReloader.Recompute;
     ThreadSafeReloader.UpdateGui;
     ThreadSafeReloader.PrintMessage ThreadSafeReloader.success_message] in
  (ThreadSafeReloader.ActiveDocument h = true ->
   ThreadSafeReloader.recompute h = Returns tt ->
   ThreadSafeReloader.updateGui h = Returns tt ->
   run = (executed ++ updates, Returns tt))
  /\ (ThreadSafeReloader.ActiveDocument h = false ->
      run = (executed, Returns tt))
  /\ (forall ev, In ev updates -> In ev (trace run) ->
      ThreadSafeReloader.ActiveDocument h = true).
Proof.
  intros Hx Hr Hm He run executed updates. subst run executed updates.
  pose proof (reload_body_exec_returns h python_file_path Hx
                code ns tr Hr Hm He) as Hbody.
  assert (Hnone : ThreadSafeReloader.ActiveDocument h = false ->
                  ThreadSafeReloader.reload_geometry_safe h python_file_path
                  = ([ThreadSafeReloader.ReadFile python_file_path;
                      ThreadSafeReloader.ImportPart;
                      ThreadSafeReloader.Exec code ns], Returns tt)).
  { intros Hd. apply reload_returns.
    rewrite Hbody, (gui_updates_without_document h Hd). reflexivity. }
  split; [|split].
  - intros Hd Hrc Hug. apply reload_returns.
    rewrite Hbody, (gui_updates_with_document h Hd Hrc Hug). reflexivity.
  - exact Hnone.
  - intros ev Hev Hin.
    destruct (ThreadSafeReloader.ActiveDocument h); [reflexivity|].
    exfalso. rewrite (Hnone eq_refl) in Hin.
    simpl in Hin, Hev.
    destruct Hev as [<-|[<-|[<-|[]]]];
      destruct Hin as [H|[H|[H|[]]]]; discriminate H.
Qed.

Lemma gui_updates_iff_active_document_witness :
  (ThreadSafeReloader.reload_geometry_safe
     (Samples.host true) Samples.geometry_py
   = ([ThreadSafeReloader.ReadFile Samples.geometry_py;
       ThreadSafeReloader.ImportPart;
       ThreadSafeReloader.Exec "x = 1" Samples.sample_namespace]
      ++ [ThreadSafeReloader.Recompute;
          ThreadSafeReloader.UpdateGui;
          ThreadSafeReloader.PrintMessage
            ThreadSafeReloader.success_message],
      Returns tt))
  /\ (ThreadSafeReloader.reload_geometry_safe
        (Samples.host false) Samples.geometry_py
      = ([ThreadSafeReloader.ReadFile Samples.geometry_py;
          ThreadSafeReloader.ImportPart;
          ThreadSafeReloader.Exec "x = 1" Samples.sample_namespace],
         Returns tt)).
Proof.
  split.
  - apply (gui_updates_iff_active_document
             (Samples.host true) Samples.geometry_py "x = 1"
             Samples.sample_namespace [ThreadSafeReloader.ImportPart]
             eq_refl eq_refl eq_refl eq_refl); reflexivity.
  - apply (gui_updates_iff_active_document
             (Samples.host false) Samples.geometry_py "x = 1"
             Samples.sample_namespace [ThreadSafeReloader.ImportPart]
             eq_refl eq_refl eq_refl eq_refl); reflexivity.
Defined.

(** C9, as stated, fails.  The host has an active document and the file's
    content was executed with success, but the recompute hook raises: the
    GUI-refresh hook is not called, the success message is not sent, and an
    error is reported. *)
Lemma raising_hook_cuts_updates_short :
  let h := MoreSamples.host_recompute_raises in
  let run := ThreadSafeReloader.reload_geometry_safe h Samples.geometry_py in
  ThreadSafeReloader.ActiveDocument h = true
  /\ ThreadSafeReloader.exec h "x = 1" Samples.sample_namespace = Returns tt
  /\ In (ThreadSafeReloader.Exec "x = 1" Samples.sample_namespace)
        (trace run)
  /\ In ThreadSafeReloader.Recompute (trace run)
  /\ ~ In ThreadSafeReloader.UpdateGui (trace run)
  /\ ~ In (ThreadSafeReloader.PrintMessage
             ThreadSafeReloader.success_message) (trace run)
  /\ In (ThreadSafeReloader.PrintError
           (ThreadSafeReloader.error_msg MoreSamples.recompute_error
            ++ newline)%string) (trace run).
Proof.
  cbv zeta. split; [reflexivity|]. split; [reflexivity|].
  split; [simpl; tauto|]. split; [simpl; tauto|].
  split; [|split].
  - intros [H|[H|[H|[H|[H|[H|[]]]]]]]; discriminate H.
  - intros [H|[H|[H|[H|[H|[H|[]]]]]]]; discriminate H.
  - simpl. do 4 right. left. reflexivity.
Qed.

(** ** The debounce gate *)

Section Debounce.

Import DebugFileHandler.

Variable reloader : option ThreadSafeReloader.t.

(** Less than a second since the recorded reading: the early [return]. *)
Lemma trigger_reload_too_soon (now : Q) (self : t) :
  now - last_modified self < 1 ->
  _trigger_reload now reloader self =
  {| handler := self; gate := Some Debounced; requests := [] |}.
Proof.
  intros H. unfold _trigger_reload.
  apply Qltb_lt in H. rewrite H. reflexivity.
Qed.

(** A second or more: the reading is recorded, and the path handed to the
    reloader when there is one. *)
Lemma trigger_reload_past_gate (now : Q) (self : t) :
  1 <= now - last_modified self ->
  _trigger_reload now reloader self =
  {| handler := mk (python_file_path self) now;
     gate := Some Processed;
     requests :=
       match reloader with
       | Some r => [ {| ThreadSafeReloader.via := r;
                        ThreadSafeReloader.target := python_file_path self |} ]
       | None => []
       end |}.
Proof.
  intros H. unfold _trigger_reload.
  apply Qltb_ge in H. rewrite H.
  destruct reloader; reflexivity.
Qed.

(** The gate never changes the path a handler watches. *)
Lemma trigger_reload_path (now : Q) (self : t) :
  python_file_path (handler (_trigger_reload now reloader self))
  = python_file_path self.
Proof.
  unfold _trigger_reload.
  destruct (Qltb _ _); [reflexivity|]. destruct reloader; reflexivity.
Qed.

(** The recorded reading after an entry: the reading of the entry when it
    got past the check, the one recorded before otherwise. *)
Lemma trigger_reload_records (now : Q) (self : t) :
  let r := _trigger_reload now reloader self in
  (gate r = Some Processed /\ last_modified (handler r) = now)
  \/ (gate r = Some Debounced /\ handler r = self).
Proof.
  unfold _trigger_reload.
  destruct (Qltb _ _); [right; split; reflexivity|].
  left. destruct reloader; split; reflexivity.
Qed.

(** Along a run, the handler's timestamp is the reading of the last entry
    that got past the check. *)
Lemma feed_records_last_accepted (times : list Q) :
  forall (self self' : t) (log : list (Q * reaction)),
    feed reloader times self = (self', log) ->
    python_file_path self' = python_file_path self
    /\ last_accepted (Some (last_modified self)) log
       = Some (last_modified self').
Proof.
  induction times as [|now rest IH]; intros self self' log Hf; simpl in Hf.
  - inversion Hf; subst. split; reflexivity.
  - destruct (feed reloader rest (handler (_trigger_reload now reloader self)))
      as [s l] eqn:Hrest.
    inversion Hf; subst s log. clear Hf.
    destruct (IH _ _ _ Hrest) as [Hp Hl].
    split.
    + rewrite Hp. apply trigger_reload_path.
    + simpl.
      destruct (trigger_reload_records now self) as [[Hg Hn] | [Hg Hs]];
        rewrite Hg.
      * rewrite <- Hn. exact Hl.
      * rewrite Hs in Hl. exact Hl.
Qed.

Lemma last_accepted_found (log : list (Q * reaction)) :
  forall (acc : option Q) (a : Q),
    last_accepted None log = Some a ->
    last_accepted acc log = Some a.
Proof.
  induction log as [|[now r] rest IH]; intros acc a H; simpl in *.
  - discriminate.
  - destruct (gate r) as [[]|]; auto.
Qed.

End Debounce.

(** C1. Along every sequence of change events on the watched file, with the
    reloader of the session in place: an event arriving strictly less than 1
    second after the last accepted change is rejected by the gate, leaves the
    timestamp as it is and forwards no reload request; an event arriving 1
    second or more after the last accepted change is accepted, sets the
    timestamp to the current time and forwards exactly one reload request,
    for the watched path. *)
Theorem debounce_gate
    (reloader : option ThreadSafeReloader.t) (python_file_path : string)
    (earlier : list Q) (self : DebugFileHandler.t)
    (log : list (Q * DebugFileHandler.reaction)) (accepted now : Q) :
  DebugFileHandler.feed reloader earlier
    (DebugFileHandler.__init__ python_file_path) = (self, log) ->
  DebugFileHandler.last_accepted None log = Some accepted ->
  (now - accepted < 1 ->
   DebugFileHandler._trigger_reload now reloader self =
   {| DebugFileHandler.handler := self;
      DebugFileHandler.gate := Some DebugFileHandler.Debounced;
      DebugFileHandler.requests := [] |})
  /\ (forall r, reloader = Some r ->
      1 <= now - accepted ->
      DebugFileHandler._trigger_reload now reloader self =
      {| DebugFileHandler.handler :=
           DebugFileHandler.mk python_file_path now;
         DebugFileHandler.gate := Some DebugFileHandler.Processed;
         DebugFileHandler.requests :=
           [ {| ThreadSafeReloader.via := r;
                ThreadSafeReloader.target := python_file_path |} ] |}).
Proof.
  intros Hf Ha.
  destruct (feed_records_last_accepted reloader earlier _ _ _ Hf) as [Hp Hl].
  rewrite (last_accepted_found log _ _ Ha) in Hl.
  injection Hl as Hl. simpl in Hp.
  split.
  - intros Hlt. apply trigger_reload_too_soon. rewrite <- Hl. exact Hlt.
  - intros r -> Hge.
    rewrite trigger_reload_past_gate by (rewrite <- Hl; exact Hge).
    rewrite Hp. reflexivity.
Qed.

Lemma debounce_gate_witness :
  let self := DebugFileHandler.mk Samples.geometry_py 1000 in
  DebugFileHandler._trigger_reload (10007 # 10)
    (Some Samples.the_reloader) self =
  {| DebugFileHandler.handler := self;
     DebugFileHandler.gate := Some DebugFileHandler.Debounced;
     DebugFileHandler.requests := [] |}
  /\ DebugFileHandler._trigger_reload (10015 # 10)
       (Some Samples.the_reloader) self =
     {| DebugFileHandler.handler :=
          DebugFileHandler.mk Samples.geometry_py (10015 # 10);
        DebugFileHandler.gate := Some DebugFileHandler.Processed;
        DebugFileHandler.requests :=
          [ {| ThreadSafeReloader.via := Samples.the_reloader;
               ThreadSafeReloader.target := Samples.geometry_py |} ] |}.
Proof.
  intros self.
  pose (log := snd (DebugFileHandler.feed (Some Samples.the_reloader)
                      [1000; 10003 # 10]
                      (DebugFileHandler.__init__ Samples.geometry_py))).
  split.
  - apply (debounce_gate (Some Samples.the_reloader) Samples.geometry_py
             [1000; 10003 # 10] self log 1000 (10007 # 10)
             eq_refl eq_refl).
    reflexivity.
  - apply (debounce_gate (Some Samples.the_reloader) Samples.geometry_py
             [1000; 10003 # 10] self log 1000 (10015 # 10)
             eq_refl eq_refl).
    + reflexivity.
    + discriminate.
Defined.

(** Without a reloader the gate still records the reading, and forwards
    nothing. *)
Lemma trigger_reload_without_reloader (now : Q) (self : DebugFileHandler.t) :
  1 <= now - DebugFileHandler.last_modified self ->
  DebugFileHandler._trigger_reload now None self =
  {| DebugFileHandler.handler :=
       DebugFileHandler.mk (DebugFileHandler.python_file_path self) now;
     DebugFileHandler.gate := Some DebugFileHandler.Processed;
     DebugFileHandler.requests := [] |}.
Proof.
  intros H. rewrite trigger_reload_past_gate by exact H. reflexivity.
Qed.

(** The timestamp of the gate never decreases. *)
Lemma trigger_reload_monotone
    (reloader : option ThreadSafeReloader.t) (now : Q)
    (self : DebugFileHandler.t) :
  DebugFileHandler.last_modified self <=
  DebugFileHandler.last_modified
    (DebugFileHandler.handler
       (DebugFileHandler._trigger_reload now reloader self)).
Proof.
  unfold DebugFileHandler._trigger_reload.
  destruct (Qltb _ _) eqn:E.
  - simpl. apply Qle_refl.
  - apply Qltb_ge in E.
    assert (Hle : DebugFileHandler.last_modified self <= now).
    { apply Qle_trans with (now - 1).
      - apply (Qplus_le_r _ _ 1).
        setoid_replace (1 + (now - 1)) with now by ring.
        apply (Qplus_le_l _ _ (- DebugFileHandler.last_modified self)).
        setoid_replace (1 + DebugFileHandler.last_modified self
                        + - DebugFileHandler.last_modified self) with 1
          by ring.
        exact E.
      - apply (Qplus_le_l _ _ 1).
        setoid_replace (now - 1 + 1) with now by ring.
        setoid_replace now with (now + 0) at 1 by ring.
        apply Qplus_le_r. discriminate. }
    destruct reloader; simpl; exact Hle.
Qed.

(** ** Which events reach the gate *)

Section Events.

Import DebugFileHandler.

Variables (now : Q) (reloader : option ThreadSafeReloader.t) (self : t).

(** A move onto the watched path is handed to the gate. *)
Lemma on_moved_onto_watched_path (event : FileSystemEvent) :
  dest_path event = python_file_path self ->
  on_moved now reloader self event = _trigger_reload now reloader self.
Proof.
  intros H. unfold on_moved.
  apply String.eqb_eq in H. rewrite H. reflexivity.
Qed.

(** A move to any other destination is not. *)
Lemma on_moved_elsewhere (event : FileSystemEvent) :
  dest_path event <> python_file_path self ->
  on_moved now reloader self event = ignored self.
Proof.
  intros H. unfold on_moved.
  apply String.eqb_neq in H. rewrite H. reflexivity.
Qed.

(** A modification of any other path is not. *)
Lemma on_modified_other_path (event : FileSystemEvent) :
  src_path event <> python_file_path self ->
  on_modified now reloader self event = ignored self.
Proof.
  intros H. unfold on_modified, _check_if_our_file_changed.
  apply String.eqb_neq in H. rewrite H.
  destruct (is_directory event); reflexivity.
Qed.

(** A modification of a directory is not, whatever its path. *)
Lemma on_modified_directory (event : FileSystemEvent) :
  is_directory event = true ->
  on_modified now reloader self event = ignored self.
Proof.
  intros H. unfold on_modified, _check_if_our_file_changed.
  rewrite H. reflexivity.
Qed.

(** A modification of the watched file is. *)
Lemma on_modified_watched_file (event : FileSystemEvent) :
  is_directory event = false ->
  src_path event = python_file_path self ->
  on_modified now reloader self event = _trigger_reload now reloader self.
Proof.
  intros Hd Hs. unfold on_modified, _check_if_our_file_changed.
  apply String.eqb_eq in Hs. rewrite Hd, Hs. reflexivity.
Qed.

(** Of the events on directories, only moves can get anywhere. *)
Lemma dispatch_directory_event (event : FileSystemEvent) :
  is_directory event = true ->
  ev_type event <> EVENT_TYPE_MOVED ->
  dispatch now reloader self event = ignored self.
Proof.
  intros Hd Ht. unfold dispatch, on_any_event. simpl.
  destruct (ev_type event); try reflexivity.
  - contradiction.
  - apply on_modified_directory. exact Hd.
Qed.

(** Through [dispatch], a modification of the watched file and a move onto
    the watched path both enter the gate. *)
Lemma dispatch_change_on_watched_file (event : FileSystemEvent) :
  (ev_type event = EVENT_TYPE_MODIFIED
   /\ is_directory event = false
   /\ src_path event = python_file_path self)
  \/ (ev_type event = EVENT_TYPE_MOVED
      /\ dest_path event = python_file_path self) ->
  dispatch now reloader self event = _trigger_reload now reloader self.
Proof.
  unfold dispatch, on_any_event. simpl.
  intros [(-> & Hd & Hs) | (-> & Hdest)].
  - apply on_modified_watched_file; assumption.
  - apply on_moved_onto_watched_path; assumption.
Qed.

(** [on_moved] does not look at the directory flag. *)
Lemma on_moved_ignores_directory_flag (ty : event_type) (src dest : string)
    (d : bool) :
  on_moved now reloader self
    {| ev_type := ty; src_path := src; dest_path := dest;
       is_directory := d |}
  = on_moved now reloader self
      {| ev_type := ty; src_path := src; dest_path := dest;
         is_directory := false |}.
Proof. reflexivity. Qed.

End Events.

(** C5, at the input where the code departs from it.  A directory is renamed
    onto the watched path: the event is a move, of a directory, whose
    destination is the watched path.  The handler hands it to the gate and a
    reload request leaves, where the specification has every directory-level
    event ignored.  [_check_if_our_file_changed], on the path of
    [on_modified], does test the flag. *)
Theorem directory_moved_onto_watched_path_requests_reload :
  let event :=
    {| DebugFileHandler.ev_type := DebugFileHandler.EVENT_TYPE_MOVED;
       DebugFileHandler.src_path := "/tmp/build";
       DebugFileHandler.dest_path := Samples.geometry_py;
       DebugFileHandler.is_directory := true |} in
  DebugFileHandler.dispatch 1000 (Some Samples.the_reloader)
    (DebugFileHandler.__init__ Samples.geometry_py) event
  = {| DebugFileHandler.handler :=
         DebugFileHandler.mk Samples.geometry_py 1000;
       DebugFileHandler.gate := Some DebugFileHandler.Processed;
       DebugFileHandler.requests :=
         [ {| ThreadSafeReloader.via := Samples.the_reloader;
              ThreadSafeReloader.target := Samples.geometry_py |} ] |}.
Proof. reflexivity. Qed.

(** ** The polling loop *)

Section Polling.

Import DebugPollingWatcher.

Variable reloader : option ThreadSafeReloader.t.

(** The first turn of a watcher just started emits nothing, whatever the
    modification time it meets. *)
Lemma poll_first_turn_emits_nothing (file_path : string) (m : Q) :
  trace (poll_turn (sees reloader m) (start (__init__ file_path))) = [].
Proof.
  unfold poll_turn, poll_body, sees, start, __init__. simpl.
  destruct (Qltb 0 m); reflexivity.
Qed.

(** It records the time it meets when that time is positive. *)
Lemma poll_first_turn_records_positive (file_path : string) (m : Q) :
  0 < m ->
  poll_turn (sees reloader m) (start (__init__ file_path))
  = ([], Returns (mk file_path m true)).
Proof.
  intros H. apply Qltb_lt in H.
  unfold poll_turn, poll_body, sees, start, __init__. simpl.
  rewrite H. reflexivity.
Qed.

(** It records nothing otherwise: the watcher is as it was created. *)
Lemma poll_first_turn_keeps_zero (file_path : string) (m : Q) :
  m <= 0 ->
  poll_turn (sees reloader m) (start (__init__ file_path))
  = ([], Returns (mk file_path 0 true)).
Proof.
  intros H. apply Qltb_ge in H.
  unfold poll_turn, poll_body, sees, start, __init__. simpl.
  rewrite H. reflexivity.
Qed.

(** Once a positive time is recorded, a greater one is a change. *)
Lemma poll_turn_detects (self : t) (m : Q) :
  0 < last_modified self ->
  last_modified self < m ->
  poll_turn (sees reloader m) self
  = (match reloader with
     | Some r => [ {| ThreadSafeReloader.via := r;
                      ThreadSafeReloader.target := file_path self |} ]
     | None => []
     end,
     Returns (mk (file_path self) m (running self))).
Proof.
  intros H0 Hm. apply Qltb_lt in H0. apply Qltb_lt in Hm.
  unfold poll_turn, poll_body, sees, notify. simpl.
  rewrite Hm, H0. destruct reloader; reflexivity.
Qed.

(** While the recorded time is zero, a greater time is only recorded. *)
Lemma poll_turn_zero_recorded (self : t) (m : Q) :
  last_modified self = 0 ->
  0 < m ->
  poll_turn (sees reloader m) self
  = ([], Returns (mk (file_path self) m (running self))).
Proof.
  intros H0 Hm. apply Qltb_lt in Hm.
  unfold poll_turn, poll_body, sees. simpl.
  rewrite H0, Hm. reflexivity.
Qed.

(** A file that is missing, or whose time cannot be read, changes nothing. *)
Lemma poll_turn_missing (o : observation) (self : t) :
  file_exists o = false ->
  poll_turn o self = ([], Returns self).
Proof.
  intros H. unfold poll_turn, poll_body. rewrite H. reflexivity.
Qed.

Lemma poll_turn_stat_error (o : observation) (self : t) (e : exn) :
  file_exists o = true ->
  getmtime o = Raises e ->
  isinstance_Exception e = true ->
  poll_turn o self = ([], Returns self).
Proof.
  intros Hx Hg He. unfold poll_turn, poll_body, try_except, bind.
  rewrite Hx, Hg, He. reflexivity.
Qed.

End Polling.

(** C4, at the input where the code departs from it.  The watched file
    exists with modification time 0 at the first turn, and with modification
    time 5 at the second.  The second observation is not the first, and its
    time is strictly greater than the one recorded; the loop emits nothing
    for it and only records the time.  The source marks the test on the
    recorded time as the skip of the first check; it skips every check until
    a positive time was met. *)
Theorem poll_second_observation_after_zero_mtime_emits_nothing :
  DebugPollingWatcher._poll
    [DebugPollingWatcher.sees (Some Samples.the_reloader) 0;
     DebugPollingWatcher.sees (Some Samples.the_reloader) 5]
    (DebugPollingWatcher.start
       (DebugPollingWatcher.__init__ Samples.geometry_py))
  = ([], Returns (DebugPollingWatcher.mk Samples.geometry_py 5 true)).
Proof. reflexivity. Qed.

(** The same two turns after a first time that is positive: the second
    emits the request. *)
Lemma poll_second_observation_after_positive_mtime_emits :
  DebugPollingWatcher._poll
    [DebugPollingWatcher.sees (Some Samples.the_reloader) 3;
     DebugPollingWatcher.sees (Some Samples.the_reloader) 5]
    (DebugPollingWatcher.start
       (DebugPollingWatcher.__init__ Samples.geometry_py))
  = ([ {| ThreadSafeReloader.via := Samples.the_reloader;
          ThreadSafeReloader.target := Samples.geometry_py |} ],
     Returns (DebugPollingWatcher.mk Samples.geometry_py 5 true)).
Proof. reflexivity. Qed.

(** ** Starting and stopping *)

Example dirname_of_sample :
  PosixPath.dirname Samples.geometry_py = "/tmp".
Proof. reflexivity. Qed.

Example dirname_of_root_file : PosixPath.dirname "/a.py" = "/".
Proof. reflexivity. Qed.

Example dirname_of_bare_name : PosixPath.dirname "a.py" = EmptyString.
Proof. reflexivity. Qed.

Section Counting.

Import Supervisor.
Local Open Scope nat_scope.

Lemma count_after_append {A} (f : A -> bool) (l : list A) (x : A) :
  List.length (filter f (l ++ [x]))
  = List.length (filter f l) + (if f x then 1 else 0).
Proof.
  rewrite filter_app, length_app. simpl. destruct (f x); reflexivity.
Qed.

Lemma active_after_new_reloader (st : State) :
  active_observers (new_reloader st) = active_observers st
  /\ active_pollers (new_reloader st) = active_pollers st.
Proof. split; reflexivity. Qed.

Lemma active_after_new_observer (o : Observer) (st : State) :
  active_observers (new_observer o st)
  = active_observers st + (if observer_active o then 1 else 0)
  /\ active_pollers (new_observer o st) = active_pollers st.
Proof.
  split; [|reflexivity].
  unfold active_observers, new_observer. simpl. apply count_after_append.
Qed.

Lemma active_after_new_poller (p : DebugPollingWatcher.t) (st : State) :
  active_observers (new_poller p st) = active_observers st
  /\ active_pollers (new_poller p st)
     = active_pollers st + (if DebugPollingWatcher.running p then 1 else 0).
Proof.
  split; [reflexivity|].
  unfold active_pollers, new_poller. simpl. apply count_after_append.
Qed.

Variable dirname : string -> string.

(** The attempt at [watchdog] leaves one more active observer when it
    returns, and none when it raises. *)
Lemma try_watchdog_active (setup : watchdog_setup) (path : string)
    (st : State) :
  let (st', r) := try_watchdog dirname setup path st in
  active_pollers st' = active_pollers st
  /\ reloader st' = reloader st
  /\ reloaders_created st' = reloaders_created st
  /\ match r with
     | Returns b => b = true /\ active_observers st' = S (active_observers st)
     | Raises e =>
         isinstance_Exception e = true
         /\ active_observers st' = active_observers st
     end.
Proof.
  destruct setup; simpl; repeat split;
    try (unfold active_observers; simpl;
         rewrite count_after_append; simpl; lia).
Qed.

Lemma fall_back_to_polling_active (path : string) (st : State) :
  let (st', r) := fall_back_to_polling path st in
  r = Returns true
  /\ active_observers st' = active_observers st
  /\ active_pollers st' = S (active_pollers st)
  /\ reloader st' = reloader st
  /\ reloaders_created st' = reloaders_created st.
Proof.
  unfold fall_back_to_polling. repeat split.
  unfold active_pollers. simpl. rewrite count_after_append. simpl. lia.
Qed.

(** What one call to [start_debug_watcher] does, in every state. *)
Lemma start_debug_watcher_effect (WATCHDOG_AVAILABLE : bool)
    (setup : watchdog_setup) (path : string) (st : State) :
  let (st', r) :=
    start_debug_watcher dirname WATCHDOG_AVAILABLE setup path st in
  r = Returns true
  /\ reloader st' = Some (ThreadSafeReloader.mk (reloaders_created st))
  /\ reloaders_created st' = S (reloaders_created st)
  /\ ((active_observers st' = S (active_observers st)
       /\ active_pollers st' = active_pollers st)
      \/ (active_observers st' = active_observers st
          /\ active_pollers st' = S (active_pollers st))).
Proof.
  unfold start_debug_watcher.
  destruct WATCHDOG_AVAILABLE.
  - pose proof (try_watchdog_active setup path (new_reloader st)) as Ht.
    destruct (try_watchdog dirname setup path (new_reloader st))
      as [st1 [b|e]].
    + destruct Ht as (Hp & Hr & Hc & Hb & Ho). subst b.
      repeat split; [exact Hr|exact Hc|].
      left. split; [exact Ho|exact Hp].
    + destruct Ht as (Hp & Hr & Hc & He & Ho). rewrite He.
      pose proof (fall_back_to_polling_active path st1) as Hf.
      destruct (fall_back_to_polling path st1) as [st2 r].
      destruct Hf as (-> & Ho2 & Hp2 & Hr2 & Hc2).
      repeat split;
        [rewrite Hr2, Hr; reflexivity | rewrite Hc2, Hc; reflexivity|].
      right. split; [rewrite Ho2; exact Ho | rewrite Hp2, Hp; reflexivity].
  - pose proof (fall_back_to_polling_active path (new_reloader st)) as Hf.
    destruct (fall_back_to_polling path (new_reloader st)) as [st2 r].
    destruct Hf as (-> & Ho2 & Hp2 & Hr2 & Hc2).
    repeat split; [exact Hr2|exact Hc2|].
    right. split; [exact Ho2|exact Hp2].
Qed.

End Counting.

(** Stopping leaves the reloader of the session in place: once
    [start_debug_watcher] has run, the change sources always find one. *)
Lemma stop_debug_watcher_keeps_reloader (st : Supervisor.State) :
  Supervisor.reloader (fst (Supervisor.stop_debug_watcher st))
  = Supervisor.reloader st.
Proof.
  unfold Supervisor.stop_debug_watcher.
  destruct (Supervisor.observer st) as [i|].
  - destruct (nth_error _ i) as [o|].
    + destruct (Supervisor.started o); simpl.
      * unfold Supervisor.stop_polling. simpl.
        destruct (Supervisor.polling_thread st); reflexivity.
      * reflexivity.
    + unfold Supervisor.stop_polling. simpl.
      destruct (Supervisor.polling_thread st); reflexivity.
  - unfold Supervisor.stop_polling.
    destruct (Supervisor.polling_thread st); reflexivity.
Qed.

Lemma start_debug_watcher_sets_reloader (dirname : string -> string)
    (WATCHDOG_AVAILABLE : bool) (setup : Supervisor.watchdog_setup)
    (path : string) (st : Supervisor.State) :
  Supervisor.reloader
    (fst (Supervisor.start_debug_watcher dirname WATCHDOG_AVAILABLE
            setup path st))
  = Some (ThreadSafeReloader.mk (Supervisor.reloaders_created st)).
Proof.
  pose proof (start_debug_watcher_effect dirname WATCHDOG_AVAILABLE
                setup path st) as H.
  destruct (Supervisor.start_debug_watcher _ _ _ _ _) as [st' r].
  simpl. tauto.
Qed.

(** C10. For every path, and in every state, [start_debug_watcher] returns
    [True]: when the observer was set up, when [watchdog] is not available,
    and when setting the observer up raised and the polling watcher was
    started in its place. *)
Theorem start_debug_watcher_returns_True (dirname : string -> string)
    (WATCHDOG_AVAILABLE : bool) (setup : Supervisor.watchdog_setup)
    (python_file_path : string) (st : Supervisor.State) :
  snd (Supervisor.start_debug_watcher dirname WATCHDOG_AVAILABLE
         setup python_file_path st)
  = Returns true.
Proof.
  pose proof (start_debug_watcher_effect dirname WATCHDOG_AVAILABLE
                setup python_file_path st) as H.
  destruct (Supervisor.start_debug_watcher _ _ _ _ _) as [st' r].
  simpl. tauto.
Qed.

(** C7, as the code has it.  [start_debug_watcher] has no guard against a
    second start: every call, in every state and so also while a session is
    active, creates one new reloader, which replaces the one the global
    named, and starts exactly one new change source, of one of the two
    variants, next to those already active. *)
Theorem start_debug_watcher_adds_one_source (dirname : string -> string)
    (WATCHDOG_AVAILABLE : bool) (setup : Supervisor.watchdog_setup)
    (python_file_path : string) (st : Supervisor.State) :
  let st' :=
    fst (Supervisor.start_debug_watcher dirname WATCHDOG_AVAILABLE
           setup python_file_path st) in
  Supervisor.reloaders_created st' = S (Supervisor.reloaders_created st)
  /\ Supervisor.reloader st'
     = Some (ThreadSafeReloader.mk (Supervisor.reloaders_created st))
  /\ Supervisor.active_change_sources st'
     = S (Supervisor.active_change_sources st)
  /\ ((Supervisor.active_observers st' = S (Supervisor.active_observers st)
       /\ Supervisor.active_pollers st' = Supervisor.active_pollers st)
      \/ (Supervisor.active_observers st' = Supervisor.active_observers st
          /\ Supervisor.active_pollers st'
             = S (Supervisor.active_pollers st))).
Proof.
  pose proof (start_debug_watcher_effect dirname WATCHDOG_AVAILABLE
                setup python_file_path st) as H.
  destruct (Supervisor.start_debug_watcher _ _ _ _ _) as [st' r].
  simpl. destruct H as (_ & Hr & Hc & Hv).
  unfold Supervisor.active_change_sources.
  repeat split; try assumption.
  destruct Hv as [[-> ->] | [-> ->]]; lia.
Qed.

(** C7, as stated, fails.  Two calls in a row from the module as loaded,
    the observer set up with success both times: after the second call two
    observers are active and two reloaders were created.  And when the first
    call fell back to polling, the second leaves a polling thread and an
    observer active side by side. *)
Lemma second_start_adds_second_source_and_dispatcher :
  let start := Supervisor.start_debug_watcher PosixPath.dirname true in
  let once :=
    fst (start Supervisor.SetupOk Samples.geometry_py Supervisor.loaded) in
  let twice := fst (start Supervisor.SetupOk Samples.geometry_py once) in
  let polling :=
    fst (start (Supervisor.StartRaises "No such file or directory")
           Samples.geometry_py Supervisor.loaded) in
  let mixed := fst (start Supervisor.SetupOk Samples.geometry_py polling) in
  (Supervisor.active_change_sources once = 1
   /\ Supervisor.active_change_sources twice = 2
   /\ Supervisor.reloaders_created twice = 2
   /\ ~ Supervisor.active_change_sources twice <= 1)%nat
  /\ (Supervisor.active_pollers mixed = 1
      /\ Supervisor.active_observers mixed = 1)%nat.
Proof.
  cbv zeta. repeat split.
  intros H. vm_compute in H. lia.
Qed.

(** * Further properties of the reload executor *)

(** Case analysis on everything the host answers during a run. *)
Ltac reload_cases :=
  cbv beta iota zeta delta
    [ThreadSafeReloader.reload_geometry_safe
     ThreadSafeReloader.reload_body ThreadSafeReloader.add_modules
     ThreadSafeReloader.gui_updates ThreadSafeReloader.reload_handler
     ThreadSafeReloader.str_of ThreadSafeReloader.raised_by_code
     try_except bind call ret raise trace result fst snd];
  repeat (match goal with
          | |- context [negb ?b] => destruct b eqn:?
          | |- context [match ?x with _ => _ end] =>
              match type of x with
              | bool => destruct x eqn:?
              | outcome _ => destruct x as [?|?] eqn:?
              | option _ => destruct x as [?|] eqn:?
              end
          | u : unit |- _ => destruct u
          end;
          cbn beta iota zeta delta [fst snd app negb andb]).



(** Membership in a trace that the case analysis made explicit. *)
Ltac in_trace :=
  cbn [In] in *;
  repeat match goal with
         | H : False |- _ => destruct H
         | H : _ \/ _ |- _ => destruct H
         | H : _ = _ :> ThreadSafeReloader.effect |- _ =>
             discriminate H || (injection H as ?; subst)
         end.

(** X2. The success message is sent only at the end of a complete run: if
    it appears in the trace, the run read the watched file, imported [Part],
    executed the code, recomputed, refreshed the GUI and sent the message,
    in that order and nothing else, and returned. *)
Theorem success_message_ends_a_complete_run
    (h : ThreadSafeReloader.Host) (python_file_path msg : string) :
  In (ThreadSafeReloader.PrintMessage msg)
     (trace (ThreadSafeReloader.reload_geometry_safe h python_file_path)) ->
  exists code ns,
    ThreadSafeReloader.reload_geometry_safe h python_file_path =
    ([ThreadSafeReloader.ReadFile python_file_path;
      ThreadSafeReloader.ImportPart;
      ThreadSafeReloader.Exec code ns;
      ThreadSafeReloader.Recompute;
      ThreadSafeReloader.UpdateGui;
      ThreadSafeReloader.PrintMessage ThreadSafeReloader.success_message],
     Returns tt).
Proof.
  reload_cases; intros H; in_trace; eauto.
Qed.

Lemma success_message_ends_a_complete_run_witness :
  exists code ns,
    ThreadSafeReloader.reload_geometry_safe
      (Samples.host true) Samples.geometry_py =
    ([ThreadSafeReloader.ReadFile Samples.geometry_py;
      ThreadSafeReloader.ImportPart;
      ThreadSafeReloader.Exec code ns;
      ThreadSafeReloader.Recompute;
      ThreadSafeReloader.UpdateGui;
      ThreadSafeReloader.PrintMessage ThreadSafeReloader.success_message],
     Returns tt).
Proof.
  apply (success_message_ends_a_complete_run
           (Samples.host true) Samples.geometry_py
           ThreadSafeReloader.success_message).
  simpl. do 5 right. left. reflexivity.
Defined.

(** X3. Whatever is handed to [exec] is the text just read from the watched
    file, with a namespace built for this run: the six bindings of the
    literal, followed by [Part] when its import returned, and without it when
    the import raised [ImportError]. *)
Theorem exec_gets_fresh_text_and_namespace
    (h : ThreadSafeReloader.Host) (python_file_path code : string)
    (ns : ThreadSafeReloader.namespace) :
  In (ThreadSafeReloader.Exec code ns)
     (trace (ThreadSafeReloader.reload_geometry_safe h python_file_path)) ->
  ThreadSafeReloader.path_exists h python_file_path = true
  /\ ThreadSafeReloader.read_text h python_file_path = Returns code
  /\ ((ThreadSafeReloader.import_Part h = Returns tt
       /\ ns = [("App", ThreadSafeReloader.VApp);
                ("Gui", ThreadSafeReloader.VGui);
                ("FreeCAD", ThreadSafeReloader.VApp);
                ("FreeCADGui", ThreadSafeReloader.VGui);
                ("__file__", ThreadSafeReloader.VStr python_file_path);
                ("__name__", ThreadSafeReloader.VStr "__main__");
                ("Part", ThreadSafeReloader.VPart)])
      \/ (exists e,
            ThreadSafeReloader.import_Part h = Raises e
            /\ isinstance_ImportError e = true
            /\ ns = [("App", ThreadSafeReloader.VApp);
                     ("Gui", ThreadSafeReloader.VGui);
                     ("FreeCAD", ThreadSafeReloader.VApp);
                     ("FreeCADGui", ThreadSafeReloader.VGui);
                     ("__file__", ThreadSafeReloader.VStr python_file_path);
                     ("__name__", ThreadSafeReloader.VStr "__main__")])).
Proof.
  reload_cases; intros H; in_trace;
    (split; [reflexivity|]);
    (split; [reflexivity|]);
    solve [left; split; reflexivity | right; eauto].
Qed.

Lemma exec_gets_fresh_text_and_namespace_witness :
  ThreadSafeReloader.path_exists (Samples.host true) Samples.geometry_py
  = true
  /\ ThreadSafeReloader.read_text (Samples.host true) Samples.geometry_py
     = Returns "x = 1"
  /\ ((ThreadSafeReloader.import_Part (Samples.host true) = Returns tt
       /\ Samples.sample_namespace
          = [("App", ThreadSafeReloader.VApp);
             ("Gui", ThreadSafeReloader.VGui);
             ("FreeCAD", ThreadSafeReloader.VApp);
             ("FreeCADGui", ThreadSafeReloader.VGui);
             ("__file__", ThreadSafeReloader.VStr Samples.geometry_py);
             ("__name__", ThreadSafeReloader.VStr "__main__");
             ("Part", ThreadSafeReloader.VPart)])
      \/ (exists e,
            ThreadSafeReloader.import_Part (Samples.host true) = Raises e
            /\ isinstance_ImportError e = true
            /\ Samples.sample_namespace
               = [("App", ThreadSafeReloader.VApp);
                  ("Gui", ThreadSafeReloader.VGui);
                  ("FreeCAD", ThreadSafeReloader.VApp);
                  ("FreeCADGui", ThreadSafeReloader.VGui);
                  ("__file__", ThreadSafeReloader.VStr Samples.geometry_py);
                  ("__name__", ThreadSafeReloader.VStr "__main__")])).
Proof.
  apply (exec_gets_fresh_text_and_namespace
           (Samples.host true) Samples.geometry_py "x = 1"
           Samples.sample_namespace).
  simpl. do 2 right. left. reflexivity.
Defined.

(** X4. Every message on the error channel reports an error the host
    raised during this run: it is the fixed prefix followed by the text of
    an exception deriving from [Exception], raised by the read, by the
    import of [Part], by the code, or by one of the two hooks; it is followed
    by the traceback and by nothing else, the run returns, and no success
    message was sent. *)
Theorem error_report_has_a_cause
    (h : ThreadSafeReloader.Host) (python_file_path msg : string) :
  In (ThreadSafeReloader.PrintError msg)
     (trace (ThreadSafeReloader.reload_geometry_safe h python_file_path)) ->
  exists e before,
    isinstance_Exception e = true
    /\ msg = ("💥 ERROR during reload: " ++ exn_str e ++ newline)%string
    /\ (ThreadSafeReloader.read_text h python_file_path = Raises e
        \/ ThreadSafeReloader.import_Part h = Raises e
        \/ (exists code ns, ThreadSafeReloader.exec h code ns = Raises e)
        \/ ThreadSafeReloader.recompute h = Raises e
        \/ ThreadSafeReloader.updateGui h = Raises e)
    /\ ThreadSafeReloader.reload_geometry_safe h python_file_path
       = (before ++ [ThreadSafeReloader.PrintError msg;
                     ThreadSafeReloader.PrintExc], Returns tt)
    /\ forall m, ~ In (ThreadSafeReloader.PrintMessage m) before.
Proof.
  reload_cases; intros H; in_trace;
    match goal with
    | He : isinstance_Exception ?e = true
      |- context [(?tr, Returns tt)] =>
        exists e, (removelast (removelast tr))
    end;
    cbn [removelast app];
    (split; [assumption|]);
    (split; [reflexivity|]);
    (split; [eauto 8|]);
    (split; [reflexivity|]);
    intros m Hin; cbn [In] in Hin;
    repeat match goal with
           | H : False |- _ => destruct H
           | H : _ \/ _ |- _ => destruct H
           end; discriminate.
Qed.

Lemma error_report_has_a_cause_witness :
  exists e before,
    isinstance_Exception e = true
    /\ (ThreadSafeReloader.error_msg Samples.syntax_error ++ newline
        = "💥 ERROR during reload: " ++ exn_str e ++ newline)%string
    /\ (ThreadSafeReloader.read_text Samples.host_broken_edit
          Samples.geometry_py = Raises e
        \/ ThreadSafeReloader.import_Part Samples.host_broken_edit = Raises e
        \/ (exists code ns,
              ThreadSafeReloader.exec Samples.host_broken_edit code ns
              = Raises e)
        \/ ThreadSafeReloader.recompute Samples.host_broken_edit = Raises e
        \/ ThreadSafeReloader.updateGui Samples.host_broken_edit = Raises e)
    /\ ThreadSafeReloader.reload_geometry_safe
         Samples.host_broken_edit Samples.geometry_py
       = (before ++ [ThreadSafeReloader.PrintError
                       (ThreadSafeReloader.error_msg Samples.syntax_error
                        ++ newline)%string;
                     ThreadSafeReloader.PrintExc], Returns tt)
    /\ forall m, ~ In (ThreadSafeReloader.PrintMessage m) before.
Proof.
  apply (error_report_has_a_cause Samples.host_broken_edit
           Samples.geometry_py
           (ThreadSafeReloader.error_msg Samples.syntax_error ++ newline)).
  simpl. do 3 right. left. reflexivity.
Defined.

(** X5. A hook that raises an error ends the updates there: the error is
    reported on the error channel like any other, the hook after it is not
    called, and the success message is not sent. *)
Theorem hook_failure_is_reported
    (h : ThreadSafeReloader.Host) (python_file_path code : string)
    (ns : ThreadSafeReloader.namespace)
    (tr : list ThreadSafeReloader.effect) (e : exn) :
  ThreadSafeReloader.path_exists h python_file_path = true ->
  ThreadSafeReloader.read_text h python_file_path = Returns code ->
  ThreadSafeReloader.add_modules h
    (ThreadSafeReloader.base_namespace python_file_path)
  = (tr, Returns ns) ->
  ThreadSafeReloader.exec h code ns = Returns tt ->
  ThreadSafeReloader.ActiveDocument h = true ->
  isinstance_Exception e = true ->
  (ThreadSafeReloader.recompute h = Raises e ->
   ThreadSafeReloader.reload_geometry_safe h python_file_path =
   ([ThreadSafeReloader.ReadFile python_file_path;
     ThreadSafeReloader.ImportPart;
     ThreadSafeReloader.Exec code ns;
     ThreadSafeReloader.Recompute;
     ThreadSafeReloader.PrintError
       (ThreadSafeReloader.error_msg e ++ newline)%string;
     ThreadSafeReloader.PrintExc], Returns tt))
  /\ (ThreadSafeReloader.recompute h = Returns tt ->
      ThreadSafeReloader.updateGui h = Raises e ->
      ThreadSafeReloader.reload_geometry_safe h python_file_path =
      ([ThreadSafeReloader.ReadFile python_file_path;
        ThreadSafeReloader.ImportPart;
        ThreadSafeReloader.Exec code ns;
        ThreadSafeReloader.Recompute;
        ThreadSafeReloader.UpdateGui;
        ThreadSafeReloader.PrintError
          (ThreadSafeReloader.error_msg e ++ newline)%string;
        ThreadSafeReloader.PrintExc], Returns tt)).
Proof.
  intros Hx Hr Hm He Hd Hexn.
  pose proof (reload_body_exec_returns h python_file_path Hx
                code ns tr Hr Hm He) as Hbody.
  pose proof (str_of_host_error h python_file_path e
                (not_raised_by_code_exec h python_file_path
                   code ns tr Hr Hm He)) as Hstr.
  split.
  - intros Hrc.
    rewrite (gui_updates_recompute_raises h e Hd Hrc) in Hbody.
    rewrite (reload_catches h python_file_path _ e Hbody Hexn Hstr).
    reflexivity.
  - intros Hrc Hug.
    assert (Hg : ThreadSafeReloader.gui_updates h =
                 ([ThreadSafeReloader.Recompute;
                   ThreadSafeReloader.UpdateGui], Raises e)).
    { unfold ThreadSafeReloader.gui_updates. rewrite Hd.
      unfold bind, call. rewrite Hrc, Hug. reflexivity. }
    rewrite Hg in Hbody.
    rewrite (reload_catches h python_file_path _ e Hbody Hexn Hstr).
    reflexivity.
Qed.

Lemma hook_failure_is_reported_witness :
  ThreadSafeReloader.reload_geometry_safe
    MoreSamples.host_recompute_raises Samples.geometry_py =
  ([ThreadSafeReloader.ReadFile Samples.geometry_py;
    ThreadSafeReloader.ImportPart;
    ThreadSafeReloader.Exec "x = 1" Samples.sample_namespace;
    ThreadSafeReloader.Recompute;
    ThreadSafeReloader.PrintError
      (ThreadSafeReloader.error_msg MoreSamples.recompute_error
       ++ newline)%string;
    ThreadSafeReloader.PrintExc], Returns tt).
Proof.
  apply (hook_failure_is_reported MoreSamples.host_recompute_raises
           Samples.geometry_py "x = 1" Samples.sample_namespace
           [ThreadSafeReloader.ImportPart] MoreSamples.recompute_error
           eq_refl eq_refl eq_refl eq_refl eq_refl eq_refl).
  reflexivity.
Defined.

(** X6. A missing [Part] module does not stop a reload: when the import
    raises [ImportError], the code is executed all the same, in a namespace
    without [Part].  Any other error of the import ends the run before the
    code is executed, and is reported. *)
Theorem import_of_Part_failing
    (h : ThreadSafeReloader.Host) (python_file_path code : string)
    (e : exn) :
  ThreadSafeReloader.path_exists h python_file_path = true ->
  ThreadSafeReloader.read_text h python_file_path = Returns code ->
  ThreadSafeReloader.import_Part h = Raises e ->
  isinstance_Exception e = true ->
  (isinstance_ImportError e = true ->
   exists rest,
     trace (ThreadSafeReloader.reload_geometry_safe h python_file_path) =
     [ThreadSafeReloader.ReadFile python_file_path;
      ThreadSafeReloader.ImportPart;
      ThreadSafeReloader.Exec code
        (ThreadSafeReloader.base_namespace python_file_path)] ++ rest)
  /\ (isinstance_ImportError e = false ->
      ThreadSafeReloader.reload_geometry_safe h python_file_path =
      ([ThreadSafeReloader.ReadFile python_file_path;
        ThreadSafeReloader.ImportPart;
        ThreadSafeReloader.PrintError
          (ThreadSafeReloader.error_msg e ++ newline)%string;
        ThreadSafeReloader.PrintExc], Returns tt)).
Proof.
  intros Hx Hr Hi Hexn. split; intros Himp.
  - assert (Hm : ThreadSafeReloader.add_modules h
                   (ThreadSafeReloader.base_namespace python_file_path)
                 = ([ThreadSafeReloader.ImportPart],
                    Returns
                      (ThreadSafeReloader.base_namespace python_file_path))).
    { unfold ThreadSafeReloader.add_modules, try_except, bind, call, ret.
      rewrite Hi, Himp. reflexivity. }
    unfold ThreadSafeReloader.reload_geometry_safe, try_except, trace.
    destruct (ThreadSafeReloader.exec h code
                (ThreadSafeReloader.base_namespace python_file_path))
      as [[]|e'] eqn:He.
    + rewrite (reload_body_exec_returns h python_file_path Hx
                 code _ _ Hr Hm He).
      destruct (result (ThreadSafeReloader.gui_updates h)) as [[]|e''];
        [eexists; reflexivity|].
      destruct (isinstance_Exception e'');
        [destruct (ThreadSafeReloader.reload_handler h python_file_path e'')
           as [tr' r']|];
        cbn [fst app]; eexists; reflexivity.
    + rewrite (reload_body_exec_raises h python_file_path Hx
                 code _ _ Hr Hm e' He).
      destruct (isinstance_Exception e');
        [destruct (ThreadSafeReloader.reload_handler h python_file_path e')
           as [tr' r']|];
        cbn [fst app]; eexists; reflexivity.
  - assert (Hm : ThreadSafeReloader.add_modules h
                   (ThreadSafeReloader.base_namespace python_file_path)
                 = ([ThreadSafeReloader.ImportPart], Raises e)).
    { unfold ThreadSafeReloader.add_modules, try_except, bind, call.
      rewrite Hi, Himp. reflexivity. }
    apply (reload_catches h python_file_path
             [ThreadSafeReloader.ReadFile python_file_path;
              ThreadSafeReloader.ImportPart] e); [|exact Hexn|].
    + unfold ThreadSafeReloader.reload_body.
      rewrite Hx. cbn [negb].
      unfold bind at 1. unfold call at 1. rewrite Hr.
      unfold bind at 1. rewrite Hm. reflexivity.
    + apply str_of_host_error.
      exact (not_raised_by_code_import h python_file_path code _ e Hr Hm).
Qed.

Lemma import_of_Part_failing_witness :
  exists rest,
    trace (ThreadSafeReloader.reload_geometry_safe
             MoreSamples.host_without_Part Samples.geometry_py) =
    [ThreadSafeReloader.ReadFile Samples.geometry_py;
     ThreadSafeReloader.ImportPart;
     ThreadSafeReloader.Exec "x = 1"
       (ThreadSafeReloader.base_namespace Samples.geometry_py)] ++ rest.
Proof.
  apply (proj1 (import_of_Part_failing MoreSamples.host_without_Part
                  Samples.geometry_py "x = 1" MoreSamples.no_part
                  eq_refl eq_refl eq_refl eq_refl)).
  reflexivity.
Defined.

(** * Further properties of the debounce gate *)

Section DebounceRuns.

Import DebugFileHandler Runs.

Variable reloader : option ThreadSafeReloader.t.

(** The two ways through [_trigger_reload]. *)
Lemma trigger_reload_cases (now : Q) (self : t) :
  (now - last_modified self < 1
   /\ _trigger_reload now reloader self =
      {| handler := self; gate := Some Debounced; requests := [] |})
  \/ (1 <= now - last_modified self
      /\ _trigger_reload now reloader self =
         {| handler := mk (python_file_path self) now;
            gate := Some Processed;
            requests :=
              match reloader with
              | Some r =>
                  [ {| ThreadSafeReloader.via := r;
                       ThreadSafeReloader.target := python_file_path self |} ]
              | None => []
              end |}).
Proof.
  destruct (Qlt_le_dec (now - last_modified self) 1) as [H|H].
  - left. split; [exact H|]. apply trigger_reload_too_soon. exact H.
  - right. split; [exact H|]. apply trigger_reload_past_gate. exact H.
Qed.

Lemma feed_cons (now : Q) (rest : list Q) (self : t) :
  feed reloader (now :: rest) self =
  (fst (feed reloader rest (handler (_trigger_reload now reloader self))),
   (now, _trigger_reload now reloader self)
     :: snd (feed reloader rest
               (handler (_trigger_reload now reloader self)))).
Proof.
  simpl. destruct (feed reloader rest _). reflexivity.
Qed.

End DebounceRuns.

(** X7. Along any run of the gate the timestamp it keeps never decreases,
    whatever the clock does. *)
Theorem feed_timestamp_never_decreases
    (reloader : option ThreadSafeReloader.t) (times : list Q) :
  forall self : DebugFileHandler.t,
    DebugFileHandler.last_modified self <=
    DebugFileHandler.last_modified
      (fst (DebugFileHandler.feed reloader times self)).
Proof.
  induction times as [|now rest IH]; intros self.
  - simpl. apply Qle_refl.
  - rewrite feed_cons. cbn [fst].
    eapply Qle_trans; [|apply IH].
    apply trigger_reload_monotone.
Qed.

(** Along a run of [feed], each accepted reading is at least one second
    after the timestamp it was compared with. *)
Lemma accepted_times_spaced
    (reloader : option ThreadSafeReloader.t) (times : list Q) :
  forall self : DebugFileHandler.t,
    Runs.spaced (DebugFileHandler.last_modified self)
      (Runs.accepted_times
         (snd (DebugFileHandler.feed reloader times self))).
Proof.
  induction times as [|now rest IH]; intros self.
  - simpl. exact I.
  - rewrite feed_cons. cbn [snd].
    unfold Runs.accepted_times. cbn [filter].
    destruct (trigger_reload_cases reloader now self) as [[_ E]|[Hge E]];
      rewrite E; unfold Runs.accepted at 1; cbn [snd DebugFileHandler.gate
        DebugFileHandler.handler].
    + apply IH.
    + cbn [map fst Runs.spaced]. split; [exact Hge|].
      apply (IH (DebugFileHandler.mk
                   (DebugFileHandler.python_file_path self) now)).
Qed.

(** Readings that are all less than one second after the timestamp of
    [self] are all debounced by [feed]. *)
Lemma burst_debounced
    (reloader : option ThreadSafeReloader.t) (times : list Q)
    (self : DebugFileHandler.t) :
  Forall (fun now => now - DebugFileHandler.last_modified self < 1) times ->
  DebugFileHandler.feed reloader times self =
  (self,
   map (fun now =>
          (now, {| DebugFileHandler.handler := self;
                   DebugFileHandler.gate := Some DebugFileHandler.Debounced;
                   DebugFileHandler.requests := [] |})) times)
  /\ Runs.forwarded (snd (DebugFileHandler.feed reloader times self)) = [].
Proof.
  intros H.
  assert (E : DebugFileHandler.feed reloader times self =
              (self,
               map (fun now =>
                      (now, {| DebugFileHandler.handler := self;
                               DebugFileHandler.gate :=
                                 Some DebugFileHandler.Debounced;
                               DebugFileHandler.requests := [] |})) times)).
  { induction H as [|now rest Hnow _ IH].
    - reflexivity.
    - rewrite feed_cons.
      rewrite (trigger_reload_too_soon reloader now self Hnow).
      cbn [DebugFileHandler.handler]. rewrite IH. reflexivity. }
  split; [exact E|].
  rewrite E. cbn [snd]. unfold Runs.forwarded. clear.
  induction times as [|now rest IH]; [reflexivity|].
  cbn [map flat_map snd DebugFileHandler.requests app]. exact IH.
Qed.

(** X8. From a handler as [__init__] leaves it, between any two changes
    the gate accepts at least one second has gone by on the clock, and the
    first accepted one is at a reading of one second or more. *)
Theorem accepted_changes_are_a_second_apart
    (reloader : option ThreadSafeReloader.t) (python_file_path : string)
    (times : list Q) :
  Runs.spaced 0
    (Runs.accepted_times
       (snd (DebugFileHandler.feed reloader times
               (DebugFileHandler.__init__ python_file_path)))).
Proof.
  exact (accepted_times_spaced reloader times
           (DebugFileHandler.__init__ python_file_path)).
Qed.

(** X9. A burst is suppressed as a whole.  Take the handler after any run
    from [__init__]: when every reading that follows is less than one second
    after its timestamp, every entry is rejected, the handler is left
    exactly as it was and no request is forwarded. *)
Theorem burst_is_suppressed
    (reloader : option ThreadSafeReloader.t) (python_file_path : string)
    (earlier times : list Q) (self : DebugFileHandler.t) :
  self = fst (DebugFileHandler.feed reloader earlier
                (DebugFileHandler.__init__ python_file_path)) ->
  Forall (fun now => now - DebugFileHandler.last_modified self < 1) times ->
  DebugFileHandler.feed reloader times self =
  (self,
   map (fun now =>
          (now, {| DebugFileHandler.handler := self;
                   DebugFileHandler.gate := Some DebugFileHandler.Debounced;
                   DebugFileHandler.requests := [] |})) times)
  /\ Runs.forwarded (snd (DebugFileHandler.feed reloader times self)) = [].
Proof.
  intros _ H. exact (burst_debounced reloader times self H).
Qed.

Lemma burst_is_suppressed_witness :
  let self := DebugFileHandler.mk Samples.geometry_py 1000 in
  DebugFileHandler.feed (Some Samples.the_reloader)
    [10003 # 10; 10005 # 10; 10009 # 10] self =
  (self,
   map (fun now =>
          (now, {| DebugFileHandler.handler := self;
                   DebugFileHandler.gate := Some DebugFileHandler.Debounced;
                   DebugFileHandler.requests := [] |}))
     [10003 # 10; 10005 # 10; 10009 # 10])
  /\ Runs.forwarded
       (snd (DebugFileHandler.feed (Some Samples.the_reloader)
               [10003 # 10; 10005 # 10; 10009 # 10] self)) = [].
Proof.
  intros self.
  apply (burst_is_suppressed (Some Samples.the_reloader)
           Samples.geometry_py [1000]
           [10003 # 10; 10005 # 10; 10009 # 10] self).
  - reflexivity.
  - repeat constructor.
Defined.

(** X10. One request per accepted change, and none otherwise: with a
    reloader in place, the requests forwarded along a run are one request
    for the watched path per accepted entry, in order; without a reloader
    nothing is ever forwarded. *)
Theorem one_request_per_accepted_change
    (reloader : option ThreadSafeReloader.t) (times : list Q) :
  forall self : DebugFileHandler.t,
    Runs.forwarded (snd (DebugFileHandler.feed reloader times self)) =
    match reloader with
    | Some r =>
        map (fun _ =>
               {| ThreadSafeReloader.via := r;
                  ThreadSafeReloader.target :=
                    DebugFileHandler.python_file_path self |})
          (Runs.accepted_times
             (snd (DebugFileHandler.feed reloader times self)))
    | None => []
    end.
Proof.
  induction times as [|now rest IH]; intros self.
  - destruct reloader; reflexivity.
  - rewrite feed_cons. cbn [snd].
    unfold Runs.forwarded, Runs.accepted_times in *.
    cbn [flat_map filter snd].
    destruct (trigger_reload_cases reloader now self) as [[_ E]|[_ E]];
      rewrite E; unfold Runs.accepted at 1;
      cbn [snd DebugFileHandler.gate DebugFileHandler.handler
             DebugFileHandler.requests app].
    + apply IH.
    + rewrite (IH (DebugFileHandler.mk
                     (DebugFileHandler.python_file_path self) now)).
      destruct reloader; reflexivity.
Qed.

Lemma last_after_cons {A} (l : list A) :
  forall x d : A, last (x :: l) d = last l x.
Proof.
  induction l as [|y l IH]; intros x d; [reflexivity|].
  change (last (x :: y :: l) d) with (last (y :: l) d).
  rewrite (IH y d), (IH y x). reflexivity.
Qed.

(** X11. Changes that are at least one second apart are all accepted: every
    entry of such a run gets past the gate, and the handler ends with the
    last reading as its timestamp. *)
Theorem spaced_changes_are_all_accepted
    (reloader : option ThreadSafeReloader.t) (times : list Q) :
  forall self : DebugFileHandler.t,
    Runs.spaced (DebugFileHandler.last_modified self) times ->
    Runs.accepted_times (snd (DebugFileHandler.feed reloader times self))
    = times
    /\ fst (DebugFileHandler.feed reloader times self)
       = DebugFileHandler.mk (DebugFileHandler.python_file_path self)
           (last times (DebugFileHandler.last_modified self)).
Proof.
  induction times as [|now rest IH]; intros self Hs.
  - split; [reflexivity|]. destruct self; reflexivity.
  - destruct Hs as [Hge Hrest].
    rewrite feed_cons. cbn [fst snd].
    rewrite (trigger_reload_past_gate reloader now self Hge).
    cbn [DebugFileHandler.handler].
    destruct (IH (DebugFileHandler.mk
                    (DebugFileHandler.python_file_path self) now) Hrest)
      as [Ha Hf].
    split.
    + unfold Runs.accepted_times in *. cbn [filter].
      unfold Runs.accepted at 1. cbn [snd DebugFileHandler.gate map fst].
      f_equal. exact Ha.
    + rewrite Hf. cbn [DebugFileHandler.python_file_path
                         DebugFileHandler.last_modified].
      f_equal. symmetry. apply last_after_cons.
Qed.

Lemma spaced_changes_are_all_accepted_witness :
  let self := DebugFileHandler.__init__ Samples.geometry_py in
  Runs.accepted_times
    (snd (DebugFileHandler.feed (Some Samples.the_reloader)
            [1000; 10015 # 10; 1003] self))
  = [1000; 10015 # 10; 1003]
  /\ fst (DebugFileHandler.feed (Some Samples.the_reloader)
            [1000; 10015 # 10; 1003] self)
     = DebugFileHandler.mk Samples.geometry_py 1003.
Proof.
  intros self.
  apply (spaced_changes_are_all_accepted (Some Samples.the_reloader)
           [1000; 10015 # 10; 1003] self).
  simpl. repeat split; discriminate.
Defined.

(** * Further properties of the event handlers *)

(** X12. Whatever the event, the handler either ignores it or hands it to
    the gate: it keeps its path, emits at most one request, and a request it
    emits is for the watched path, on the reloader of the session, with the
    timestamp set to the reading of the clock. *)
Theorem dispatch_emits_at_most_one_request
    (now : Q) (reloader : option ThreadSafeReloader.t)
    (self : DebugFileHandler.t) (event : DebugFileHandler.FileSystemEvent) :
  let r := DebugFileHandler.dispatch now reloader self event in
  DebugFileHandler.python_file_path (DebugFileHandler.handler r)
  = DebugFileHandler.python_file_path self
  /\ (r = DebugFileHandler.ignored self
      \/ r = DebugFileHandler._trigger_reload now reloader self)
  /\ (DebugFileHandler.requests r = []
      \/ exists via,
           reloader = Some via
           /\ DebugFileHandler.requests r =
              [ {| ThreadSafeReloader.via := via;
                   ThreadSafeReloader.target :=
                     DebugFileHandler.python_file_path self |} ]
           /\ DebugFileHandler.last_modified (DebugFileHandler.handler r)
              = now).
Proof.
  intros r.
  assert (Hshape : r = DebugFileHandler.ignored self
                   \/ r = DebugFileHandler._trigger_reload now reloader self).
  { subst r.
    unfold DebugFileHandler.dispatch, DebugFileHandler.on_any_event,
      DebugFileHandler.on_modified, DebugFileHandler.on_moved,
      DebugFileHandler._check_if_our_file_changed.
    cbn [DebugFileHandler.handler DebugFileHandler.ignored].
    destruct (DebugFileHandler.ev_type event); auto.
    - destruct (String.eqb _ _); auto.
    - destruct (DebugFileHandler.is_directory event); auto.
      destruct (negb _); auto. }
  split; [|split; [exact Hshape|]].
  - destruct Hshape as [-> | ->]; [reflexivity|].
    apply trigger_reload_path.
  - destruct Hshape as [-> | ->]; [left; reflexivity|].
    destruct (trigger_reload_cases reloader now self) as [[_ E]|[_ E]];
      rewrite E; cbn [DebugFileHandler.requests DebugFileHandler.handler
                        DebugFileHandler.last_modified].
    + left. reflexivity.
    + destruct reloader as [via|]; [right|left; reflexivity].
      exists via. repeat split.
Qed.

(** X13. Events that are not a change of the watched file leave the handler
    exactly as it was, debounce timestamp included, and emit nothing: events
    of creation, deletion, closing and opening, even of the watched file;
    modifications of a directory or of another path; moves whose destination
    is not the watched path, such as a move of the watched file away. *)
Theorem unrelated_events_leave_handler_untouched
    (now : Q) (reloader : option ThreadSafeReloader.t)
    (self : DebugFileHandler.t) (event : DebugFileHandler.FileSystemEvent) :
  (DebugFileHandler.ev_type event <> DebugFileHandler.EVENT_TYPE_MODIFIED
   /\ DebugFileHandler.ev_type event <> DebugFileHandler.EVENT_TYPE_MOVED)
  \/ (DebugFileHandler.ev_type event = DebugFileHandler.EVENT_TYPE_MODIFIED
      /\ (DebugFileHandler.is_directory event = true
          \/ DebugFileHandler.src_path event
             <> DebugFileHandler.python_file_path self))
  \/ (DebugFileHandler.ev_type event = DebugFileHandler.EVENT_TYPE_MOVED
      /\ DebugFileHandler.dest_path event
         <> DebugFileHandler.python_file_path self) ->
  DebugFileHandler.dispatch now reloader self event =
  {| DebugFileHandler.handler := self;
     DebugFileHandler.gate := None;
     DebugFileHandler.requests := [] |}.
Proof.
  unfold DebugFileHandler.dispatch, DebugFileHandler.on_any_event.
  cbn [DebugFileHandler.handler DebugFileHandler.ignored].
  intros [[Hm Hv] | [[Ht [Hd|Hs]] | [Ht Hdest]]].
  - destruct (DebugFileHandler.ev_type event);
      try reflexivity; contradiction.
  - rewrite Ht. apply on_modified_directory. exact Hd.
  - rewrite Ht. apply on_modified_other_path. exact Hs.
  - rewrite Ht. apply on_moved_elsewhere. exact Hdest.
Qed.

Lemma unrelated_events_leave_handler_untouched_witness :
  let self := DebugFileHandler.mk Samples.geometry_py 1000 in
  DebugFileHandler.dispatch 2000 (Some Samples.the_reloader) self
    {| DebugFileHandler.ev_type := DebugFileHandler.EVENT_TYPE_MOVED;
       DebugFileHandler.src_path := Samples.geometry_py;
       DebugFileHandler.dest_path := "/tmp/doc_geometry.py.bak";
       DebugFileHandler.is_directory := false |} =
  {| DebugFileHandler.handler := self;
     DebugFileHandler.gate := None;
     DebugFileHandler.requests := [] |}.
Proof.
  intros self.
  apply (unrelated_events_leave_handler_untouched 2000
           (Some Samples.the_reloader) self).
  right. right. split; [reflexivity|]. discriminate.
Defined.

(** * Further properties of the polling loop *)

Section PollingRuns.

Import DebugPollingWatcher.

(** The three ways one turn can end. *)
Lemma poll_turn_cases (o : observation) (self : t) :
  poll_turn o self = ([], Returns self)
  \/ (exists m,
        file_exists o = true /\ getmtime o = Returns m
        /\ last_modified self < m
        /\ poll_turn o self =
           (if Qltb 0 (last_modified self)
            then match reloader_now o with
                 | Some r =>
                     [ {| ThreadSafeReloader.via := r;
                          ThreadSafeReloader.target := file_path self |} ]
                 | None => []
                 end
            else [],
            Returns (mk (file_path self) m (running self))))
  \/ (exists e,
        getmtime o = Raises e /\ isinstance_Exception e = false
        /\ poll_turn o self = ([], Raises e)).
Proof.
  unfold poll_turn, poll_body, try_except, bind, ret, notify.
  destruct (file_exists o); [|left; reflexivity].
  destruct (getmtime o) as [m|e].
  - destruct (Qltb (last_modified self) m) eqn:Hm; [|left; reflexivity].
    right. left. exists m. apply Qltb_lt in Hm.
    repeat split; try assumption.
    destruct (Qltb 0 (last_modified self)); [|reflexivity].
    destruct (reloader_now o); reflexivity.
  - destruct (isinstance_Exception e) eqn:He; [left; reflexivity|].
    right. right. exists e. repeat split. exact He.
Qed.

Lemma poll_cons (o : observation) (rest : list observation) (self : t) :
  _poll (o :: rest) self =
  (let self := if stop_called o then stop self else self in
   if running self
   then bind (poll_turn o self) (fun self' => _poll rest self')
   else ret self).
Proof. reflexivity. Qed.

End PollingRuns.

(** X14. The loop keeps what it watches and never lowers the time it
    recorded: however a run of the loop ends, the watcher it leaves has the
    same path, and a recorded modification time that is not smaller. *)
Theorem poll_keeps_path_and_never_lowers_time
    (obs : list DebugPollingWatcher.observation) :
  forall (self self' : DebugPollingWatcher.t),
    result (DebugPollingWatcher._poll obs self) = Returns self' ->
    DebugPollingWatcher.file_path self' = DebugPollingWatcher.file_path self
    /\ DebugPollingWatcher.last_modified self
       <= DebugPollingWatcher.last_modified self'.
Proof.
  induction obs as [|o rest IH]; intros self self' H.
  - simpl in H. injection H as <-. split; [reflexivity|apply Qle_refl].
  - rewrite poll_cons in H. cbv zeta in H.
    set (s := if DebugPollingWatcher.stop_called o
              then DebugPollingWatcher.stop self else self) in *.
    assert (Hs : DebugPollingWatcher.file_path s
                 = DebugPollingWatcher.file_path self
                 /\ DebugPollingWatcher.last_modified s
                    = DebugPollingWatcher.last_modified self).
    { subst s. destruct (DebugPollingWatcher.stop_called o);
        split; reflexivity. }
    destruct Hs as [Hp Hl]. rewrite <- Hp, <- Hl.
    destruct (DebugPollingWatcher.running s).
    + destruct (poll_turn_cases o s)
        as [E | [(m & _ & _ & Hlt & E) | (e & _ & _ & E)]];
        rewrite E in H; unfold bind, result in H.
      * destruct (DebugPollingWatcher._poll rest s) as [tr r] eqn:Er.
        cbn [snd] in H. apply IH. rewrite Er. exact H.
      * destruct (DebugPollingWatcher._poll rest _) as [tr r] eqn:Er.
        cbn [snd] in H.
        destruct (IH _ self' (eq_trans (f_equal snd Er) H)) as [Hp' Hl'].
        cbn [DebugPollingWatcher.file_path
               DebugPollingWatcher.last_modified] in Hp', Hl'.
        split; [exact Hp'|].
        apply Qle_trans with m; [apply Qlt_le_weak; exact Hlt|exact Hl'].
      * discriminate H.
    + simpl in H. injection H as <-. split; [reflexivity|apply Qle_refl].
Qed.

Lemma poll_keeps_path_and_never_lowers_time_witness :
  let self :=
    DebugPollingWatcher.start
      (DebugPollingWatcher.__init__ Samples.geometry_py) in
  let self' := DebugPollingWatcher.mk Samples.geometry_py 5 true in
  DebugPollingWatcher.file_path self' = DebugPollingWatcher.file_path self
  /\ DebugPollingWatcher.last_modified self
     <= DebugPollingWatcher.last_modified self'.
Proof.
  intros self self'.
  apply (poll_keeps_path_and_never_lowers_time
           [DebugPollingWatcher.sees (Some Samples.the_reloader) 3;
            DebugPollingWatcher.sees (Some Samples.the_reloader) 2;
            DebugPollingWatcher.sees (Some Samples.the_reloader) 5]
           self self').
  reflexivity.
Defined.

(** X15. No failed turn ends the loop: as long as what [os.path.getmtime]
    raises derives from [Exception], a run of the loop over any observations
    returns; a missing file or an unreadable time costs the turn, not the
    thread. *)
Theorem poll_survives_failed_turns
    (obs : list DebugPollingWatcher.observation) :
  Forall (fun o => forall e,
            DebugPollingWatcher.getmtime o = Raises e ->
            isinstance_Exception e = true) obs ->
  forall self : DebugPollingWatcher.t,
    exists self',
      result (DebugPollingWatcher._poll obs self) = Returns self'.
Proof.
  induction 1 as [|o rest Ho _ IH]; intros self.
  - exists self. reflexivity.
  - rewrite poll_cons. cbv zeta.
    set (s := if DebugPollingWatcher.stop_called o
              then DebugPollingWatcher.stop self else self).
    destruct (DebugPollingWatcher.running s);
      [|exists s; reflexivity].
    destruct (poll_turn_cases o s)
      as [E | [(m & _ & _ & _ & E) | (e & He & Hn & _)]].
    + rewrite E. unfold bind, result.
      destruct (IH s) as [self' Hr].
      destruct (DebugPollingWatcher._poll rest s) as [tr r].
      exists self'. exact Hr.
    + rewrite E. unfold bind, result.
      destruct (IH (DebugPollingWatcher.mk
                      (DebugPollingWatcher.file_path s) m
                      (DebugPollingWatcher.running s))) as [self' Hr].
      destruct (DebugPollingWatcher._poll rest _) as [tr r].
      exists self'. exact Hr.
    + rewrite (Ho e He) in Hn. discriminate Hn.
Qed.

Lemma poll_survives_failed_turns_witness :
  exists self',
    result
      (DebugPollingWatcher._poll
         [DebugPollingWatcher.sees None 3;
          {| DebugPollingWatcher.stop_called := false;
             DebugPollingWatcher.file_exists := true;
             DebugPollingWatcher.getmtime :=
               Raises (Exn OtherException "No such file or directory");
             DebugPollingWatcher.reloader_now := None |};
          Polls.misses None;
          DebugPollingWatcher.sees None 5]
         (DebugPollingWatcher.start
            (DebugPollingWatcher.__init__ Samples.geometry_py)))
    = Returns self'.
Proof.
  apply (poll_survives_failed_turns
           [DebugPollingWatcher.sees None 3;
            {| DebugPollingWatcher.stop_called := false;
               DebugPollingWatcher.file_exists := true;
               DebugPollingWatcher.getmtime :=
                 Raises (Exn OtherException "No such file or directory");
               DebugPollingWatcher.reloader_now := None |};
            Polls.misses None;
            DebugPollingWatcher.sees None 5]).
  repeat constructor; simpl; intros e H;
    try discriminate H; injection H as <-; reflexivity.
Defined.

(** X16. A modification time that is not greater than the recorded one is
    not a change: over any number of turns that meet such times, a file
    restored with an older time included, the loop emits nothing and the
    recorded time stays. *)
Theorem poll_ignores_times_not_newer
    (reloader : option ThreadSafeReloader.t) (mtimes : list Q)
    (self : DebugPollingWatcher.t) :
  Forall (fun m => m <= DebugPollingWatcher.last_modified self) mtimes ->
  DebugPollingWatcher._poll
    (map (DebugPollingWatcher.sees reloader) mtimes) self
  = ([], Returns self).
Proof.
  intros H. induction H as [|m rest Hm _ IH]; [reflexivity|].
  cbn [map]. rewrite poll_cons. cbv zeta.
  cbn [DebugPollingWatcher.stop_called DebugPollingWatcher.sees].
  destruct (DebugPollingWatcher.running self); [|reflexivity].
  assert (E : DebugPollingWatcher.poll_turn
                (DebugPollingWatcher.sees reloader m) self
              = ([], Returns self)).
  { unfold DebugPollingWatcher.poll_turn, DebugPollingWatcher.poll_body,
      try_except, bind, ret. simpl.
    apply Qltb_ge in Hm. rewrite Hm. reflexivity. }
  rewrite E. unfold bind. rewrite IH. reflexivity.
Qed.

Lemma poll_ignores_times_not_newer_witness :
  let self := DebugPollingWatcher.mk Samples.geometry_py 5 true in
  DebugPollingWatcher._poll
    (map (DebugPollingWatcher.sees (Some Samples.the_reloader)) [5; 2; 5])
    self
  = ([], Returns self).
Proof.
  intros self.
  apply (poll_ignores_times_not_newer (Some Samples.the_reloader)
           [5; 2; 5] self).
  repeat constructor; discriminate.
Defined.

(** X17. The polling loop has no debounce: once a positive time is
    recorded, every turn that meets a strictly greater time emits one
    request for the watched path, however close the times are, and the loop
    ends with the last of them recorded. *)
Theorem poll_emits_for_every_increase
    (r : ThreadSafeReloader.t) (mtimes : list Q) :
  forall self : DebugPollingWatcher.t,
    DebugPollingWatcher.running self = true ->
    0 < DebugPollingWatcher.last_modified self ->
    Polls.increasing (DebugPollingWatcher.last_modified self) mtimes ->
    DebugPollingWatcher._poll
      (map (DebugPollingWatcher.sees (Some r)) mtimes) self
    = (map (fun _ =>
              {| ThreadSafeReloader.via := r;
                 ThreadSafeReloader.target :=
                   DebugPollingWatcher.file_path self |}) mtimes,
       Returns (DebugPollingWatcher.mk
                  (DebugPollingWatcher.file_path self)
                  (last mtimes (DebugPollingWatcher.last_modified self))
                  true)).
Proof.
  induction mtimes as [|m rest IH]; intros self Hrun Hpos Hinc.
  - simpl. destruct self as [p l b]. simpl in Hrun. subst b. reflexivity.
  - destruct Hinc as [Hlt Hrest].
    cbn [map]. rewrite poll_cons. cbv zeta.
    cbn [DebugPollingWatcher.stop_called DebugPollingWatcher.sees].
    rewrite Hrun.
    fold (DebugPollingWatcher.sees (Some r) m).
    rewrite (poll_turn_detects (Some r) self m Hpos Hlt).
    unfold bind. rewrite Hrun.
    rewrite (IH (DebugPollingWatcher.mk
                   (DebugPollingWatcher.file_path self) m true)
               eq_refl (Qlt_trans _ _ _ Hpos Hlt) Hrest).
    cbn [DebugPollingWatcher.file_path DebugPollingWatcher.last_modified
           app].
    rewrite last_after_cons. reflexivity.
Qed.

Lemma poll_emits_for_every_increase_witness :
  DebugPollingWatcher._poll
    (map (DebugPollingWatcher.sees (Some Samples.the_reloader))
       [31 # 10; 32 # 10])
    (DebugPollingWatcher.mk Samples.geometry_py 3 true)
  = (map (fun _ =>
            {| ThreadSafeReloader.via := Samples.the_reloader;
               ThreadSafeReloader.target := Samples.geometry_py |})
       [31 # 10; 32 # 10],
     Returns (DebugPollingWatcher.mk Samples.geometry_py (32 # 10) true)).
Proof.
  apply (poll_emits_for_every_increase Samples.the_reloader
           [31 # 10; 32 # 10]
           (DebugPollingWatcher.mk Samples.geometry_py 3 true)).
  - reflexivity.
  - reflexivity.
  - simpl. repeat split.
Defined.

(** X18. Once [stop] was called the loop does nothing more: of a run, only
    the turns before the one that finds the flag lowered emit anything,
    and the watcher the loop leaves is not running. *)
Theorem poll_does_nothing_after_stop
    (pre : list DebugPollingWatcher.observation) :
  forall (o : DebugPollingWatcher.observation)
         (rest : list DebugPollingWatcher.observation)
         (self : DebugPollingWatcher.t),
    DebugPollingWatcher.stop_called o = true ->
    trace (DebugPollingWatcher._poll (pre ++ o :: rest) self)
    = trace (DebugPollingWatcher._poll pre self)
    /\ forall self',
         result (DebugPollingWatcher._poll (pre ++ o :: rest) self)
         = Returns self' ->
         DebugPollingWatcher.running self' = false.
Proof.
  induction pre as [|p pre IH]; intros o rest self Hstop.
  - cbn [app]. rewrite poll_cons. cbv zeta. rewrite Hstop.
    cbn [DebugPollingWatcher.running DebugPollingWatcher.stop].
    split; [reflexivity|].
    intros self' H. simpl in H. injection H as <-. reflexivity.
  - cbn [app]. rewrite !poll_cons. cbv zeta.
    set (s := if DebugPollingWatcher.stop_called p
              then DebugPollingWatcher.stop self else self).
    destruct (DebugPollingWatcher.running s) eqn:Hrun.
    + destruct (DebugPollingWatcher.poll_turn p s) as [tr [s1|e]];
        unfold bind.
      * destruct (IH o rest s1 Hstop) as [Ht Hr].
        destruct (DebugPollingWatcher._poll (pre ++ o :: rest) s1)
          as [tr1 r1].
        destruct (DebugPollingWatcher._poll pre s1) as [tr2 r2].
        unfold trace, result in *. cbn [fst snd] in *.
        split; [rewrite Ht; reflexivity|exact Hr].
      * split; [reflexivity|]. intros self' H. discriminate H.
    + split; [reflexivity|].
      intros self' H. simpl in H. injection H as <-. exact Hrun.
Qed.

Lemma poll_does_nothing_after_stop_witness :
  let stopping :=
    {| DebugPollingWatcher.stop_called := true;
       DebugPollingWatcher.file_exists := true;
       DebugPollingWatcher.getmtime := Returns 7;
       DebugPollingWatcher.reloader_now := Some Samples.the_reloader |} in
  let self := DebugPollingWatcher.mk Samples.geometry_py 3 true in
  trace (DebugPollingWatcher._poll
           ([DebugPollingWatcher.sees (Some Samples.the_reloader) 5]
              ++ stopping
              :: [DebugPollingWatcher.sees (Some Samples.the_reloader) 9])
           self)
  = trace (DebugPollingWatcher._poll
             [DebugPollingWatcher.sees (Some Samples.the_reloader) 5] self)
  /\ forall self',
       result (DebugPollingWatcher._poll
                 ([DebugPollingWatcher.sees (Some Samples.the_reloader) 5]
                    ++ stopping
                    :: [DebugPollingWatcher.sees
                          (Some Samples.the_reloader) 9])
                 self)
       = Returns self' ->
       DebugPollingWatcher.running self' = false.
Proof.
  intros stopping self.
  apply (poll_does_nothing_after_stop
           [DebugPollingWatcher.sees (Some Samples.the_reloader) 5]
           stopping
           [DebugPollingWatcher.sees (Some Samples.the_reloader) 9]
           self).
  reflexivity.
Defined.

(** X19. A file that goes missing is waited for: while it is missing the
    loop emits nothing and keeps the recorded time, for any number of
    turns, and when the file is back with a greater time the change is
    emitted. *)
Theorem poll_resumes_when_file_is_back
    (r : ThreadSafeReloader.t) (absent : nat) (m : Q)
    (self : DebugPollingWatcher.t) :
  DebugPollingWatcher.running self = true ->
  0 < DebugPollingWatcher.last_modified self ->
  DebugPollingWatcher.last_modified self < m ->
  DebugPollingWatcher._poll (repeat (Polls.misses (Some r)) absent) self
  = ([], Returns self)
  /\ DebugPollingWatcher._poll
       (repeat (Polls.misses (Some r)) absent
          ++ [DebugPollingWatcher.sees (Some r) m]) self
     = ([ {| ThreadSafeReloader.via := r;
             ThreadSafeReloader.target :=
               DebugPollingWatcher.file_path self |} ],
        Returns (DebugPollingWatcher.mk
                   (DebugPollingWatcher.file_path self) m true)).
Proof.
  intros Hrun Hpos Hlt.
  induction absent as [|n [IH1 IH2]].
  - split; [reflexivity|].
    cbn [repeat app]. rewrite poll_cons. cbv zeta.
    cbn [DebugPollingWatcher.stop_called DebugPollingWatcher.sees].
    rewrite Hrun.
    fold (DebugPollingWatcher.sees (Some r) m).
    rewrite (poll_turn_detects (Some r) self m Hpos Hlt).
    unfold bind. rewrite Hrun. reflexivity.
  - cbn [repeat app]. rewrite !poll_cons. cbv zeta.
    cbn [DebugPollingWatcher.stop_called Polls.misses].
    rewrite Hrun.
    fold (Polls.misses (Some r)).
    rewrite (poll_turn_missing (Polls.misses (Some r)) self eq_refl).
    unfold bind. rewrite IH1, IH2. split; reflexivity.
Qed.

Lemma poll_resumes_when_file_is_back_witness :
  let self := DebugPollingWatcher.mk Samples.geometry_py 3 true in
  DebugPollingWatcher._poll
    (repeat (Polls.misses (Some Samples.the_reloader)) 2) self
  = ([], Returns self)
  /\ DebugPollingWatcher._poll
       (repeat (Polls.misses (Some Samples.the_reloader)) 2
          ++ [DebugPollingWatcher.sees (Some Samples.the_reloader) 9]) self
     = ([ {| ThreadSafeReloader.via := Samples.the_reloader;
             ThreadSafeReloader.target := Samples.geometry_py |} ],
        Returns (DebugPollingWatcher.mk Samples.geometry_py 9 true)).
Proof.
  intros self.
  apply (poll_resumes_when_file_is_back Samples.the_reloader 2 9 self);
    reflexivity.
Defined.

(** X20. Every request the loop emits is for the path the watcher was
    created with, on the reloader the global held at that turn. *)
Theorem poll_requests_are_for_the_watched_path
    (obs : list DebugPollingWatcher.observation) :
  forall (self : DebugPollingWatcher.t)
         (q : ThreadSafeReloader.ReloadRequest),
    In q (trace (DebugPollingWatcher._poll obs self)) ->
    ThreadSafeReloader.target q = DebugPollingWatcher.file_path self
    /\ exists o,
         In o obs
         /\ DebugPollingWatcher.reloader_now o
            = Some (ThreadSafeReloader.via q).
Proof.
  induction obs as [|o rest IH]; intros self q Hin.
  - destruct Hin.
  - rewrite poll_cons in Hin. cbv zeta in Hin.
    set (s := if DebugPollingWatcher.stop_called o
              then DebugPollingWatcher.stop self else self) in *.
    assert (Hp : DebugPollingWatcher.file_path s
                 = DebugPollingWatcher.file_path self).
    { subst s. destruct (DebugPollingWatcher.stop_called o); reflexivity. }
    rewrite <- Hp.
    destruct (DebugPollingWatcher.running s); [|destruct Hin].
    destruct (poll_turn_cases o s)
      as [E | [(m & _ & _ & _ & E) | (e & _ & _ & E)]];
      rewrite E in Hin; unfold bind, trace in Hin.
    + destruct (DebugPollingWatcher._poll rest s) as [tr r0] eqn:Er.
      cbn [fst app] in Hin.
      destruct (IH s q) as [Ht (o' & Ho' & Hv)];
        [rewrite Er; exact Hin|].
      split; [exact Ht|]. exists o'. split; [right; exact Ho'|exact Hv].
    + destruct (DebugPollingWatcher._poll rest _) as [tr r0] eqn:Er.
      cbn [fst] in Hin. apply in_app_or in Hin.
      destruct Hin as [Hin|Hin].
      * destruct (Qltb 0 _); [|destruct Hin].
        destruct (DebugPollingWatcher.reloader_now o) as [r|] eqn:Hr;
          [|destruct Hin].
        destruct Hin as [<-|[]]. split; [reflexivity|].
        exists o. split; [left; reflexivity|exact Hr].
      * match type of Er with
        | ?run = _ =>
            assert (Hin' : In q (trace run)) by (rewrite Er; exact Hin)
        end.
        destruct (IH _ q Hin') as [Ht (o' & Ho' & Hv)].
        split; [exact Ht|].
        exists o'. split; [right; exact Ho'|exact Hv].
    + destruct Hin.
Qed.

Lemma poll_requests_are_for_the_watched_path_witness :
  let q := {| ThreadSafeReloader.via := Samples.the_reloader;
              ThreadSafeReloader.target := Samples.geometry_py |} in
  let obs := [DebugPollingWatcher.sees (Some Samples.the_reloader) 3;
              DebugPollingWatcher.sees (Some Samples.the_reloader) 5] in
  let self := DebugPollingWatcher.start
                (DebugPollingWatcher.__init__ Samples.geometry_py) in
  ThreadSafeReloader.target q = DebugPollingWatcher.file_path self
  /\ exists o,
       In o obs
       /\ DebugPollingWatcher.reloader_now o
          = Some (ThreadSafeReloader.via q).
Proof.
  intros q obs self.
  apply (poll_requests_are_for_the_watched_path obs self q).
  left. reflexivity.
Defined.

(** * Further properties of the supervisor *)

Section Stopping.

Import Supervisor.
Local Open Scope nat_scope.

Lemma update_nth_length {A} (f : A -> A) (l : list A) :
  forall n, List.length (update_nth n f l) = List.length l.
Proof.
  induction l as [|x l IH]; intros [|n]; simpl; auto.
Qed.

Lemma update_nth_last {A} (f : A -> A) (l : list A) (x : A) :
  update_nth (List.length l) f (l ++ [x]) = l ++ [f x].
Proof.
  induction l as [|y l IH]; simpl; [reflexivity|].
  rewrite IH. reflexivity.
Qed.

Lemma update_nth_other {A} (f : A -> A) (l : list A) :
  forall n k, k <> n -> nth_error (update_nth n f l) k = nth_error l k.
Proof.
  induction l as [|x l IH]; intros [|n] [|k] H; simpl;
    try reflexivity.
  - contradiction H. reflexivity.
  - apply IH. intros ->. apply H. reflexivity.
Qed.

(** Lowering a flag at one position lowers the count by one at most. *)
Lemma count_after_lowering {A} (g : A -> bool) (f : A -> A) (l : list A) :
  (forall x, g (f x) = false) ->
  forall n,
    List.length (filter g (update_nth n f l)) <= List.length (filter g l)
    /\ List.length (filter g l)
       <= S (List.length (filter g (update_nth n f l))).
Proof.
  intros Hf. induction l as [|x l IH]; intros [|n]; simpl.
  - lia.
  - lia.
  - rewrite Hf. destruct (g x); simpl; lia.
  - specialize (IH n). destruct (g x); simpl; lia.
Qed.

Lemma stop_observer_counts (i : nat) (st : State) :
  active_observers (stop_observer i st) <= active_observers st
  /\ active_observers st <= S (active_observers (stop_observer i st))
  /\ active_pollers (stop_observer i st) = active_pollers st.
Proof.
  unfold active_observers, active_pollers, stop_observer. simpl.
  split; [|split; [|reflexivity]];
    apply count_after_lowering; intros o; unfold observer_active; simpl;
    apply andb_false_r.
Qed.

Lemma stop_polling_counts (st : State) :
  active_pollers (stop_polling st) <= active_pollers st
  /\ active_pollers st <= S (active_pollers (stop_polling st))
  /\ active_observers (stop_polling st) = active_observers st.
Proof.
  unfold active_observers, active_pollers, stop_polling.
  destruct (polling_thread st) as [j|]; simpl; [|lia].
  split; [|split; [|reflexivity]];
    apply count_after_lowering; intros p; reflexivity.
Qed.

(** The state a call to [stop_debug_watcher] leaves, case by case. *)
Lemma stop_debug_watcher_cases (st : State) :
  (observer st = None
   /\ stop_debug_watcher st = (stop_polling st, Returns tt))
  \/ (exists i,
        observer st = Some i
        /\ stop_debug_watcher st
           = (stop_polling (forget_observer (stop_observer i st)),
              Returns tt))
  \/ (exists i o,
        observer st = Some i
        /\ nth_error (observers st) i = Some o
        /\ started o = false
        /\ stop_debug_watcher st
           = (stop_observer i st, Raises join_unstarted)).
Proof.
  unfold stop_debug_watcher.
  destruct (observer st) as [i|] eqn:Hobs; [|left; split; reflexivity].
  right.
  destruct (nth_error (observers (stop_observer i st)) i) as [o|] eqn:Hn.
  - destruct (started o) eqn:Hs.
    + left. exists i. split; reflexivity.
    + right. unfold stop_observer in Hn. simpl in Hn.
      assert (Ho : exists o0, nth_error (observers st) i = Some o0
                              /\ started o0 = false).
      { clear Hobs. revert i Hn.
        induction (observers st) as [|x l IH]; intros [|i] Hn;
          simpl in Hn; try discriminate.
        - injection Hn as <-. exists x. split; [reflexivity|exact Hs].
        - apply IH in Hn. exact Hn. }
      destruct Ho as (o0 & Hn0 & Hs0).
      exists i, o0. repeat split; assumption.
  - left. exists i. split; reflexivity.
Qed.

End Stopping.

(** X21. Stopping is idempotent: after a call to [stop_debug_watcher] that
    returned, the globals name no observer and no polling thread, and a
    second call returns and changes nothing. *)
Theorem stop_debug_watcher_twice (st st' : Supervisor.State) :
  Supervisor.stop_debug_watcher st = (st', Returns tt) ->
  Sessions.idle st'
  /\ Supervisor.stop_debug_watcher st' = (st', Returns tt).
Proof.
  intros H.
  assert (Hidle : Sessions.idle st').
  { destruct (stop_debug_watcher_cases st)
      as [[Ho E] | [(i & Ho & E) | (i & o & _ & _ & _ & E)]];
      rewrite E in H; try discriminate H; injection H as <-;
      unfold Sessions.idle, Supervisor.stop_polling; simpl.
    - destruct (Supervisor.polling_thread st) eqn:Hp; simpl; auto.
    - destruct (Supervisor.polling_thread st) eqn:Hp; simpl; auto. }
  split; [exact Hidle|].
  destruct Hidle as [Ho Hp].
  unfold Supervisor.stop_debug_watcher, Supervisor.stop_polling.
  rewrite Ho, Hp. reflexivity.
Qed.

Lemma stop_debug_watcher_twice_witness :
  let st :=
    fst (Supervisor.start_debug_watcher PosixPath.dirname true
           Supervisor.SetupOk Samples.geometry_py Supervisor.loaded) in
  let st' := fst (Supervisor.stop_debug_watcher st) in
  Sessions.idle st'
  /\ Supervisor.stop_debug_watcher st' = (st', Returns tt).
Proof.
  intros st st'.
  apply (stop_debug_watcher_twice st st').
  reflexivity.
Defined.

(** X22. Stopping touches only what the globals name: it leaves the
    reloader of the session in place and creates none, and every observer
    and every polling watcher other than the two the globals name is as it
    was, running or not. *)
Theorem stop_debug_watcher_touches_only_named (st : Supervisor.State) :
  let st' := fst (Supervisor.stop_debug_watcher st) in
  Supervisor.reloader st' = Supervisor.reloader st
  /\ Supervisor.reloaders_created st' = Supervisor.reloaders_created st
  /\ (forall k, Supervisor.observer st <> Some k ->
        nth_error (Supervisor.observers st') k
        = nth_error (Supervisor.observers st) k)
  /\ (forall k, Supervisor.polling_thread st <> Some k ->
        nth_error (Supervisor.pollers st') k
        = nth_error (Supervisor.pollers st) k).
Proof.
  assert (Hpoll : forall s k,
             Supervisor.polling_thread s <> Some k ->
             nth_error (Supervisor.pollers (Supervisor.stop_polling s)) k
             = nth_error (Supervisor.pollers s) k).
  { intros s k Hk. unfold Supervisor.stop_polling.
    destruct (Supervisor.polling_thread s) as [j|]; [|reflexivity].
    simpl. apply update_nth_other. intros ->. apply Hk. reflexivity. }
  assert (Hsame : forall s,
             Supervisor.reloader (Supervisor.stop_polling s)
             = Supervisor.reloader s
             /\ Supervisor.reloaders_created (Supervisor.stop_polling s)
                = Supervisor.reloaders_created s
             /\ Supervisor.observers (Supervisor.stop_polling s)
                = Supervisor.observers s).
  { intros s. unfold Supervisor.stop_polling.
    destruct (Supervisor.polling_thread s); repeat split. }
  intros st'. subst st'.
  destruct (stop_debug_watcher_cases st)
    as [[Ho E] | [(i & Ho & E) | (i & o & Ho & _ & _ & E)]];
    rewrite E; cbn [fst].
  - destruct (Hsame st) as (Hr & Hc & Hobs).
    repeat split; try assumption.
    + intros k _. rewrite Hobs. reflexivity.
    + intros k Hk. apply Hpoll. exact Hk.
  - destruct (Hsame (Supervisor.forget_observer
                       (Supervisor.stop_observer i st)))
      as (Hr & Hc & Hobs).
    repeat split; try assumption.
    + intros k Hk. rewrite Hobs. simpl.
      apply update_nth_other. intros ->. apply Hk. exact Ho.
    + intros k Hk. rewrite Hpoll; [reflexivity|exact Hk].
  - repeat split.
    + intros k Hk. simpl.
      apply update_nth_other. intros ->. apply Hk. exact Ho.
Qed.

(** X23. One call to [stop_debug_watcher] stops at most one observer and at
    most one polling thread, and starts nothing: the number of active change
    sources does not grow, and drops by two at most. *)
Theorem stop_debug_watcher_stops_at_most_two (st : Supervisor.State) :
  let st' := fst (Supervisor.stop_debug_watcher st) in
  (Supervisor.active_change_sources st'
   <= Supervisor.active_change_sources st
   /\ Supervisor.active_change_sources st
      <= 2 + Supervisor.active_change_sources st')%nat.
Proof.
  intros st'. subst st'. unfold Supervisor.active_change_sources.
  destruct (stop_debug_watcher_cases st)
    as [[Ho E] | [(i & Ho & E) | (i & o & Ho & _ & _ & E)]];
    rewrite E; cbn [fst].
  - pose proof (stop_polling_counts st). lia.
  - pose proof (stop_polling_counts
                  (Supervisor.forget_observer
                     (Supervisor.stop_observer i st))) as Hp.
    pose proof (stop_observer_counts i st) as Hobs.
    change (Supervisor.active_pollers
              (Supervisor.forget_observer (Supervisor.stop_observer i st)))
      with (Supervisor.active_pollers (Supervisor.stop_observer i st))
      in Hp.
    change (Supervisor.active_observers
              (Supervisor.forget_observer (Supervisor.stop_observer i st)))
      with (Supervisor.active_observers (Supervisor.stop_observer i st))
      in Hp.
    lia.
  - pose proof (stop_observer_counts i st). lia.
Qed.

Section Sessions.

Import Supervisor.
Local Open Scope nat_scope.

Variable dirname : string -> string.

Lemma nth_error_last {A} (l : list A) (x : A) :
  nth_error (l ++ [x]) (List.length l) = Some x.
Proof.
  induction l as [|y l IH]; simpl; [reflexivity|exact IH].
Qed.

(** The state after a start that set the observer up. *)
Lemma start_with_observer (path : string) (st : State) :
  start_debug_watcher dirname true SetupOk path st =
  (mkState (Some (List.length (observers st))) (polling_thread st)
     (Some (ThreadSafeReloader.mk (reloaders_created st)))
     (S (reloaders_created st))
     (observers st
        ++ [mkObserver [(DebugFileHandler.__init__ path, dirname path)]
              true false])
     (pollers st),
   Returns true).
Proof. reflexivity. Qed.

(** The state after a start that went straight to polling. *)
Lemma start_with_polling (WATCHDOG_AVAILABLE : bool)
    (setup : watchdog_setup) (path : string) (st : State) :
  WATCHDOG_AVAILABLE = false \/ (exists msg, setup = ObserverRaises msg) ->
  start_debug_watcher dirname WATCHDOG_AVAILABLE setup path st =
  (mkState (observer st) (Some (List.length (pollers st)))
     (Some (ThreadSafeReloader.mk (reloaders_created st)))
     (S (reloaders_created st))
     (observers st)
     (pollers st ++ [DebugPollingWatcher.mk path 0 true]),
   Returns true).
Proof.
  intros [-> | [msg ->]]; [reflexivity|].
  destruct WATCHDOG_AVAILABLE; reflexivity.
Qed.

(** Stopping when the global names the observer created last, started. *)
Lemma stop_last_observer (w : list (DebugFileHandler.t * string))
    (obs : list Observer) (pt : option nat)
    (r : option ThreadSafeReloader.t) (n : nat)
    (ps : list DebugPollingWatcher.t) :
  stop_debug_watcher
    (mkState (Some (List.length obs)) pt r n
       (obs ++ [mkObserver w true false]) ps) =
  (stop_polling
     (mkState None pt r n (obs ++ [mkObserver [] true true]) ps),
   Returns tt).
Proof.
  unfold stop_debug_watcher, stop_observer. simpl.
  rewrite update_nth_last, nth_error_last. reflexivity.
Qed.

End Sessions.

(** X24. Start then stop is a round trip: from a state whose globals name
    no session, a start that set the observer up, or that went to polling
    because [watchdog] is unavailable or [Observer()] raised, followed by a
    stop, leaves as many active change sources as before, and globals that
    name no session again. *)
Theorem start_then_stop_restores (dirname : string -> string)
    (WATCHDOG_AVAILABLE : bool) (setup : Supervisor.watchdog_setup)
    (python_file_path : string) (st : Supervisor.State) :
  Sessions.idle st ->
  WATCHDOG_AVAILABLE = false
  \/ setup = Supervisor.SetupOk
  \/ (exists msg, setup = Supervisor.ObserverRaises msg) ->
  exists st',
    Supervisor.stop_debug_watcher
      (fst (Supervisor.start_debug_watcher dirname WATCHDOG_AVAILABLE
              setup python_file_path st))
    = (st', Returns tt)
    /\ Supervisor.active_change_sources st'
       = Supervisor.active_change_sources st
    /\ Sessions.idle st'.
Proof.
  intros [Ho Hp] Hcase.
  assert (Hpolling :
            WATCHDOG_AVAILABLE = false
            \/ (exists msg, setup = Supervisor.ObserverRaises msg) ->
            exists st',
              Supervisor.stop_debug_watcher
                (fst (Supervisor.start_debug_watcher dirname
                        WATCHDOG_AVAILABLE setup python_file_path st))
              = (st', Returns tt)
              /\ Supervisor.active_change_sources st'
                 = Supervisor.active_change_sources st
              /\ Sessions.idle st').
  { intros Hc.
    rewrite (start_with_polling dirname _ _ python_file_path st Hc).
    cbn [fst].
    unfold Supervisor.stop_debug_watcher, Supervisor.stop_polling.
    cbn [Supervisor.observer Supervisor.polling_thread]. rewrite Ho.
    eexists. split; [reflexivity|].
    unfold Supervisor.active_change_sources, Supervisor.active_observers,
      Supervisor.active_pollers, Sessions.idle.
    cbn [Supervisor.observers Supervisor.pollers Supervisor.observer
           Supervisor.polling_thread].
    rewrite update_nth_last, count_after_append. simpl.
    repeat split; lia. }
  destruct Hcase as [Hc | [-> | Hc]]; [auto| |auto].
  destruct WATCHDOG_AVAILABLE; [|auto].
  rewrite start_with_observer. cbn [fst].
  rewrite stop_last_observer.
  unfold Supervisor.stop_polling.
  cbn [Supervisor.polling_thread]. rewrite Hp.
  eexists. split; [reflexivity|].
  unfold Supervisor.active_change_sources, Supervisor.active_observers,
    Supervisor.active_pollers, Sessions.idle.
  cbn [Supervisor.observers Supervisor.pollers Supervisor.observer
         Supervisor.polling_thread].
  rewrite count_after_append. simpl.
  repeat split; try assumption; lia.
Qed.

Lemma start_then_stop_restores_witness :
  exists st',
    Supervisor.stop_debug_watcher
      (fst (Supervisor.start_debug_watcher PosixPath.dirname false
              Supervisor.SetupOk Samples.geometry_py Supervisor.loaded))
    = (st', Returns tt)
    /\ Supervisor.active_change_sources st'
       = Supervisor.active_change_sources Supervisor.loaded
    /\ Sessions.idle st'.
Proof.
  apply (start_then_stop_restores PosixPath.dirname false
           Supervisor.SetupOk Samples.geometry_py Supervisor.loaded).
  - split; reflexivity.
  - left. reflexivity.
Defined.

(** X25. A stop ends only the session started last: after two starts in a
    row that each set an observer up, one stop returns and leaves the
    observer of the first start running, unreachable from the globals. *)
Theorem stop_after_two_starts_leaves_one_running
    (dirname : string -> string) (first second : string)
    (st : Supervisor.State) :
  Supervisor.polling_thread st = None ->
  let start := Supervisor.start_debug_watcher dirname true
                 Supervisor.SetupOk in
  exists st',
    Supervisor.stop_debug_watcher (fst (start second (fst (start first st))))
    = (st', Returns tt)
    /\ Sessions.idle st'
    /\ Supervisor.active_observers st'
       = S (Supervisor.active_observers st)
    /\ nth_error (Supervisor.observers st')
         (List.length (Supervisor.observers st))
       = Some (Supervisor.mkObserver
                 [(DebugFileHandler.__init__ first, dirname first)]
                 true false).
Proof.
  intros Hp start. subst start.
  rewrite !start_with_observer. cbn [fst].
  cbn [Supervisor.observers Supervisor.polling_thread
         Supervisor.reloaders_created Supervisor.pollers].
  rewrite stop_last_observer.
  unfold Supervisor.stop_polling.
  cbn [Supervisor.polling_thread]. rewrite Hp.
  eexists. split; [reflexivity|].
  unfold Supervisor.active_observers, Sessions.idle.
  cbn [Supervisor.observers Supervisor.observer Supervisor.polling_thread].
  rewrite !count_after_append. simpl.
  repeat split.
  - lia.
  - rewrite nth_error_app1
      by (rewrite length_app; simpl; lia).
    apply nth_error_last.
Qed.

Lemma stop_after_two_starts_leaves_one_running_witness :
  let start := Supervisor.start_debug_watcher PosixPath.dirname true
                 Supervisor.SetupOk in
  exists st',
    Supervisor.stop_debug_watcher
      (fst (start Samples.geometry_py
              (fst (start Samples.geometry_py Supervisor.loaded))))
    = (st', Returns tt)
    /\ Sessions.idle st'
    /\ Supervisor.active_observers st'
       = S (Supervisor.active_observers Supervisor.loaded)
    /\ nth_error (Supervisor.observers st')
         (List.length (Supervisor.observers Supervisor.loaded))
       = Some (Supervisor.mkObserver
                 [(DebugFileHandler.__init__ Samples.geometry_py,
                   PosixPath.dirname Samples.geometry_py)]
                 true false).
Proof.
  apply (stop_after_two_starts_leaves_one_running PosixPath.dirname
           Samples.geometry_py Samples.geometry_py Supervisor.loaded).
  reflexivity.
Defined.

(** X26. A stop after a start whose observer could not be set up does not
    stop the polling thread.  When [schedule] or [start] of the observer
    raised, the global names an observer whose thread never started and the
    start fell back to polling; [stop_debug_watcher] then raises at
    [observer.join()], before it reaches the polling thread, which goes on
    running, still named by the global. *)
Theorem stop_after_failed_setup_leaves_polling
    (dirname : string -> string) (setup : Supervisor.watchdog_setup)
    (python_file_path : string) (st : Supervisor.State) :
  (exists msg, setup = Supervisor.ScheduleRaises msg)
  \/ (exists msg, setup = Supervisor.StartRaises msg) ->
  let started :=
    fst (Supervisor.start_debug_watcher dirname true setup
           python_file_path st) in
  let stopped := Supervisor.stop_debug_watcher started in
  snd stopped = Raises Supervisor.join_unstarted
  /\ Supervisor.polling_thread (fst stopped)
     = Some (List.length (Supervisor.pollers st))
  /\ nth_error (Supervisor.pollers (fst stopped))
       (List.length (Supervisor.pollers st))
     = Some (DebugPollingWatcher.mk python_file_path 0 true)
  /\ Supervisor.active_pollers (fst stopped)
     = S (Supervisor.active_pollers st).
Proof.
  intros Hsetup started stopped. subst stopped started.
  assert (E : exists w,
             Supervisor.start_debug_watcher dirname true setup
               python_file_path st =
             (Supervisor.mkState
                (Some (List.length (Supervisor.observers st)))
                (Some (List.length (Supervisor.pollers st)))
                (Some (ThreadSafeReloader.mk
                         (Supervisor.reloaders_created st)))
                (S (Supervisor.reloaders_created st))
                (Supervisor.observers st
                   ++ [Supervisor.mkObserver w false false])
                (Supervisor.pollers st
                   ++ [DebugPollingWatcher.mk python_file_path 0 true]),
              Returns true)).
  { destruct Hsetup as [[msg ->] | [msg ->]]; eexists; reflexivity. }
  destruct E as [w ->]. cbn [fst].
  unfold Supervisor.stop_debug_watcher, Supervisor.stop_observer.
  cbn [Supervisor.observer Supervisor.observers Supervisor.polling_thread
         Supervisor.reloader Supervisor.reloaders_created
         Supervisor.pollers].
  rewrite update_nth_last, nth_error_last.
  cbn [Supervisor.started fst snd Supervisor.polling_thread
         Supervisor.pollers].
  repeat split.
  - apply nth_error_last.
  - unfold Supervisor.active_pollers. cbn [Supervisor.pollers].
    rewrite count_after_append. simpl. lia.
Qed.

Lemma stop_after_failed_setup_leaves_polling_witness :
  let started :=
    fst (Supervisor.start_debug_watcher PosixPath.dirname true
           (Supervisor.StartRaises "No such file or directory")
           Samples.geometry_py Supervisor.loaded) in
  let stopped := Supervisor.stop_debug_watcher started in
  snd stopped = Raises Supervisor.join_unstarted
  /\ Supervisor.polling_thread (fst stopped)
     = Some (List.length (Supervisor.pollers Supervisor.loaded))
  /\ nth_error (Supervisor.pollers (fst stopped))
       (List.length (Supervisor.pollers Supervisor.loaded))
     = Some (DebugPollingWatcher.mk Samples.geometry_py 0 true)
  /\ Supervisor.active_pollers (fst stopped)
     = S (Supervisor.active_pollers Supervisor.loaded).
Proof.
  apply (stop_after_failed_setup_leaves_polling PosixPath.dirname
           (Supervisor.StartRaises "No such file or directory")
           Samples.geometry_py Supervisor.loaded).
  right. eexists. reflexivity.
Defined.

(** * Properties of the entry point *)

Example geometry_file_of_saved_document :
  Macro.geometry_file PosixPath.dirname PosixName.basename
    PosixName.splitext PosixName.join "/home/u/bracket.FCStd"
  = "/home/u/bracket_geometry.py".
Proof. reflexivity. Qed.

Example geometry_file_keeps_inner_dots :
  Macro.geometry_file PosixPath.dirname PosixName.basename
    PosixName.splitext PosixName.join "/work/v1.2/gear.v3.FCStd"
  = "/work/v1.2/gear.v3_geometry.py".
Proof. reflexivity. Qed.

Example geometry_file_of_hidden_name :
  Macro.geometry_file PosixPath.dirname PosixName.basename
    PosixName.splitext PosixName.join ".hidden"
  = ".hidden_geometry.py".
Proof. reflexivity. Qed.

Section Main.

Variables dirname basename : string -> string.
Variable splitext : string -> string * string.
Variable join : string -> string -> string.

Let main := Macro.main dirname basename splitext join.
Let geometry_file := Macro.geometry_file dirname basename splitext join.

(** [main] once it is past its checks. *)
Lemma main_starts (h : Macro.Host) (st : Supervisor.State)
    (c : Ascii.ascii) (rest : string) :
  Macro.ActiveDocument h = Some (String c rest) ->
  Macro.print_mtime h (geometry_file (String c rest)) = Returns tt ->
  main h st =
  (fst (Supervisor.start_debug_watcher dirname
          (Macro.WATCHDOG_AVAILABLE h) (Macro.setup h)
          (geometry_file (String c rest)) st),
   ([ThreadSafeReloader.PrintMessage Macro.running_message;
     ThreadSafeReloader.PrintMessage Macro.edit_message], Returns tt)).
Proof.
  intros Hdoc Hm. unfold main, Macro.main. rewrite Hdoc.
  fold (geometry_file (String c rest)). rewrite Hm.
  pose proof (start_debug_watcher_effect dirname
                (Macro.WATCHDOG_AVAILABLE h) (Macro.setup h)
                (geometry_file (String c rest)) st) as H.
  destruct (Supervisor.start_debug_watcher _ _ _ _ _) as [st' r].
  destruct H as (-> & _). reflexivity.
Qed.

Lemma print_mtime_cases (h : Macro.Host) (path : string) :
  Macro.print_mtime h path = Returns tt
  \/ exists e,
       Macro.path_exists h path = true
       /\ Macro.getmtime h path = Raises e
       /\ Macro.print_mtime h path = Raises e.
Proof.
  unfold Macro.print_mtime.
  destruct (Macro.path_exists h path); [|left; reflexivity].
  destruct (Macro.getmtime h path) as [m|e]; [left; reflexivity|].
  right. exists e. repeat split.
Qed.

End Main.

(** X27. [main] starts nothing without a saved document, and nothing when
    the file it is about to watch is there but its modification time cannot
    be read: with no active document, or with one that has no file name, it
    returns at once; when [os.path.getmtime] raises, the exception leaves
    [main] before the watcher is started.  In all three cases the state is
    untouched and nothing is sent to the console. *)
Theorem main_starts_nothing
    (dirname basename : string -> string)
    (splitext : string -> string * string)
    (join : string -> string -> string)
    (h : Macro.Host) (st : Supervisor.State) :
  (Macro.ActiveDocument h = None
   \/ Macro.ActiveDocument h = Some EmptyString ->
   Macro.main dirname basename splitext join h st = (st, ([], Returns tt)))
  /\ (forall doc_path e,
        Macro.ActiveDocument h = Some doc_path ->
        doc_path <> EmptyString ->
        Macro.path_exists h
          (Macro.geometry_file dirname basename splitext join doc_path)
        = true ->
        Macro.getmtime h
          (Macro.geometry_file dirname basename splitext join doc_path)
        = Raises e ->
        Macro.main dirname basename splitext join h st
        = (st, ([], Raises e))).
Proof.
  split.
  - intros [H|H]; unfold Macro.main; rewrite H; reflexivity.
  - intros doc_path e Hdoc Hne Hx Hg.
    unfold Macro.main. rewrite Hdoc.
    destruct doc_path as [|c rest]; [contradiction Hne; reflexivity|].
    unfold Macro.print_mtime. rewrite Hx, Hg. reflexivity.
Qed.

Lemma main_starts_nothing_witness :
  Macro.posix_main Macro.unsaved_document Supervisor.loaded
  = (Supervisor.loaded, ([], Returns tt)).
Proof.
  apply (proj1 (main_starts_nothing PosixPath.dirname PosixName.basename
                  PosixName.splitext PosixName.join
                  Macro.unsaved_document Supervisor.loaded)).
  right. reflexivity.
Defined.

(** X28. Whatever [main] starts it announces: in every run, either the
    state is untouched and nothing was sent to the console, or an active
    document with a file name was found, the watcher was started on the
    file derived from that name, one more change source is active, and both
    messages were sent to the informational channel, in order.  The test on
    what [start_debug_watcher] returns never fails. *)
Theorem main_announces_what_it_starts
    (dirname basename : string -> string)
    (splitext : string -> string * string)
    (join : string -> string -> string)
    (h : Macro.Host) (st : Supervisor.State) :
  let run := Macro.main dirname basename splitext join h st in
  (fst run = st /\ trace (snd run) = [])
  \/ (exists doc_path,
        Macro.ActiveDocument h = Some doc_path
        /\ doc_path <> EmptyString
        /\ fst run
           = fst (Supervisor.start_debug_watcher dirname
                    (Macro.WATCHDOG_AVAILABLE h) (Macro.setup h)
                    (Macro.geometry_file dirname basename splitext join
                       doc_path) st)
        /\ snd run
           = ([ThreadSafeReloader.PrintMessage Macro.running_message;
               ThreadSafeReloader.PrintMessage Macro.edit_message],
              Returns tt)
        /\ Supervisor.active_change_sources (fst run)
           = S (Supervisor.active_change_sources st)).
Proof.
  intros run. subst run.
  destruct (Macro.ActiveDocument h) as [[|c rest]|] eqn:Hdoc.
  - left. unfold Macro.main. rewrite Hdoc. split; reflexivity.
  - destruct (print_mtime_cases h
                (Macro.geometry_file dirname basename splitext join
                   (String c rest))) as [Hm | (e & _ & _ & Hm)].
    + right. exists (String c rest).
      rewrite (main_starts dirname basename splitext join h st c rest
                 Hdoc Hm).
      cbn [fst snd].
      repeat split; try discriminate.
      pose proof (start_debug_watcher_effect dirname
                    (Macro.WATCHDOG_AVAILABLE h) (Macro.setup h)
                    (Macro.geometry_file dirname basename splitext join
                       (String c rest)) st) as H.
      destruct (Supervisor.start_debug_watcher _ _ _ _ _) as [st' r].
      cbn [fst]. unfold Supervisor.active_change_sources.
      destruct H as (_ & _ & _ & [[-> ->] | [-> ->]]); lia.
    + left. unfold Macro.main. rewrite Hdoc. cbv zeta.
      rewrite Hm. split; reflexivity.
  - left. unfold Macro.main. rewrite Hdoc. split; reflexivity.
Qed.
